(** * MWSdynamics: the military workforce model of [src/sim.py]

    A shallow embedding of [MilitaryWorkforceModel]: the derivative
    function [workforce_ode], the time grid of [simulate], the metrics
    reducer [calculate_metrics] and the scenario runner [run_scenario].

    The program computes on NumPy [float64] arrays.  The embedding is
    written once over an interface [Scalar] of the arithmetic the code
    uses, and is read at two instances: [binary64] (the kernel's IEEE 754
    doubles, what the program really computes with) and [exact] (the
    rationals [Qc], the arithmetic the model's equations are meant in).

    Two limits of the embedding are stated where they matter.  A sum
    [np_sum] adds in storage order, which is NumPy's result in exact
    arithmetic and, in binary64, only where the order is immaterial: the
    statements about the values of sums are made in exact arithmetic, or
    in binary64 for zeros and for integers whose sum is exact.  The
    attribute names that begin with two underscores, among them those every
    object inherits, are not modelled: the statements about [run_scenario]
    are made for keys that are not [special]. *)

From Stdlib Require Import ZArith QArith Qcanon Qround Floats Uint63 Ring Field.
From stdpp Require Import base tactics option list gmap strings.

Set Default Proof Using "Type*".
Open Scope Z_scope.
Open Scope nat_scope.

(** ** Exceptions and the error monad *)

(** The Python exceptions the modelled code can raise. *)
Inductive exn :=
| AttributeError | IndexError | TypeError | ValueError
| ZeroDivisionError | RecursionError
| SolverError (code : Z).

Inductive result (A : Type) :=
| Ok (a : A)
| Raise (e : exn).
Arguments Ok {A} a.
Arguments Raise {A} e.

#[global] Instance exn_eq_dec : EqDecision exn.
Proof. solve_decision. Defined.

#[global] Instance result_ret : MRet result := fun _ a => Ok a.
#[global] Instance result_bind : MBind result := fun _ _ f m =>
  match m with Ok a => f a | Raise e => Raise e end.
#[global] Instance result_fmap : FMap result := fun _ _ f m =>
  match m with Ok a => Ok (f a) | Raise e => Raise e end.

Definition is_ok {A} (r : result A) : bool :=
  match r with Ok _ => true | Raise _ => false end.

(** [for x in xs: acc = body(x, acc)], stopping at the first exception. *)
Fixpoint for_in {A B} (xs : list A) (body : A → B → result B) (acc : B) : result B :=
  match xs with
  | [] => Ok acc
  | x :: xs' => acc' ← body x acc; for_in xs' body acc'
  end.

(** Python's [range(n)] for an integer [n]: empty when [n <= 0]. *)
Definition range (n : Z) : list nat := seq 0 (Z.to_nat n).

(** ** The arithmetic interface *)

Class Scalar (F : Type) := {
  fzero : F;
  fone : F;
  fadd : F → F → F;
  fsub : F → F → F;
  fmul : F → F → F;
  fdiv : F → F → F;
  (** [x < y] and [x == y] as Python evaluates them on floats *)
  fltb : F → F → bool;
  feqb : F → F → bool;
  (** conversion of a Python [int] *)
  of_Z : Z → F;
  (** [ceil], undefined (NaN, infinite) as [None] *)
  fceil : F → option Z;
  (** the sign bit, which tells [-0.0] from [0.0] *)
  fsignbit : F → bool;
}.

Declare Scope scalar_scope.
Delimit Scope scalar_scope with F.
Infix "+" := fadd : scalar_scope.
Infix "-" := fsub : scalar_scope.
Infix "*" := fmul : scalar_scope.
Infix "/" := fdiv : scalar_scope.

(** A decimal literal of the source, [n / d] with [d] a power of ten: the
    correctly rounded quotient of two exactly represented integers is the
    double nearest to the decimal, which is how Python reads the literal. *)
Definition dec `{Scalar F} (n d : Z) : F := (of_Z n / of_Z d)%F.

(** *** IEEE 754 binary64 *)

Definition float_of_Z (z : Z) : float :=
  SF2Prim (binary_normalize prec emax z 0 false).

Definition float_ceil (x : float) : option Z :=
  match Prim2SF x with
  | S754_zero _ => Some 0%Z
  | S754_finite s m e =>
      let a := if s then Z.neg m else Z.pos m in
      Some (match e with
            | Zneg p => (- ((- a) / 2 ^ Z.pos p))%Z
            | _ => (a * 2 ^ e)%Z
            end)
  | _ => None
  end.

#[global] Instance binary64 : Scalar float := {|
  fzero := 0%float;
  fone := 1%float;
  fadd := PrimFloat.add;
  fsub := PrimFloat.sub;
  fmul := PrimFloat.mul;
  fdiv := PrimFloat.div;
  fltb := PrimFloat.ltb;
  feqb := PrimFloat.eqb;
  of_Z := float_of_Z;
  fceil := float_ceil;
  fsignbit := PrimFloat.get_sign;
|}.

(** The rational value of a finite double. *)
Definition float_to_Q (x : float) : option Q :=
  match Prim2SF x with
  | S754_zero _ => Some 0%Q
  | S754_finite s m e =>
      let a := (if s then Z.neg m else Z.pos m) in
      Some (match e with
            | Z0 => inject_Z a
            | Zpos p => inject_Z (a * 2 ^ Z.pos p)
            | Zneg p => Qmake a (2 ^ p)
            end)
  | _ => None
  end.

(** *** Exact rational arithmetic *)

#[global] Instance exact : Scalar Qc := {|
  fzero := 0%Qc;
  fone := 1%Qc;
  fadd := Qcplus;
  fsub := Qcminus;
  fmul := Qcmult;
  fdiv := Qcdiv;
  fltb := fun x y => bool_decide (x < y)%Qc;
  feqb := fun x y => bool_decide (x = y);
  of_Z := fun z => Q2Qc (inject_Z z);
  fceil := fun x => Some (Qceiling x);
  fsignbit := fun x => bool_decide (x < 0)%Qc;
|}.

(** ** Arrays, values and objects *)

(** The dictionary [metrics]: its six arrays, as locations of the store
    ([A := nat]) or as their contents. *)
Record metrics (A : Type) := Metrics {
  total_force : A;
  combat_ratio : A;
  technical_ratio : A;
  support_ratio : A;
  junior_to_senior_ratio : A;
  experienced_personnel : A;
}.
Arguments Metrics {A}.
Arguments total_force {A}.
Arguments combat_ratio {A}.
Arguments technical_ratio {A}.
Arguments support_ratio {A}.
Arguments junior_to_senior_ratio {A}.
Arguments experienced_personnel {A}.

Section Model.
Context {F : Type} `{!Scalar F}.

(** A NumPy array of floats in C order: [data] holds [size_of shape]
    elements, the last index varying fastest. *)
Record ndarray := NDArray { shape : list nat; data : list F }.

Definition size_of (sh : list nat) : nat := foldr Nat.mul 1 sh.

(** The data an attribute of the model can be set to: [None], an [int],
    a [float] or an array of floats (the integer array
    [recruitment_rates] is converted when it is added to a float array,
    and is kept here with its elements already converted). *)
Inductive value :=
| VNone
| VInt (n : Z)
| VFloat (x : F)
| VArray (a : ndarray).

(** What looking up a name on the model can give: data, or the bound
    method [self.m] of the class. *)
Inductive attr :=
| Data (v : value)
| Method (m : string).

(** The names the class body defines. *)
Definition methods : list string :=
  ["__init__"; "simulate"; "calculate_metrics"; "plot_results"; "run_scenario"]%string.

(** The names that begin with two underscores.  Those every object
    inherits from [object] and from its class ([__class__], [__dict__],
    [__doc__], [__module__], ...) are all of this kind; some of them
    cannot be assigned, and assigning [__dict__] or [__class__] replaces
    the attributes or the class as a whole. *)
Definition special (name : string) : bool := String.prefix "__" name.

(** An instance is its attribute dictionary; a name not found there is
    looked up in the class.  The names inherited from [object] are left
    out: [getattr], [hasattr] and [setattr] are those of Python for the
    names that are not [special], and the statements about them are made
    for such names. *)
Definition getattr (self : gmap string attr) (name : string) : result attr :=
  match self !! name with
  | Some v => Ok v
  | None => if bool_decide (name ∈ methods) then Ok (Method name) else Raise AttributeError
  end.

Definition hasattr (self : gmap string attr) (name : string) : bool :=
  is_ok (getattr self name).

Definition setattr (self : gmap string attr) (name : string) (v : attr) :
    gmap string attr :=
  <[name := v]> self.

(** An argument that must be a Python [int]. *)
Definition as_int (v : attr) : result Z :=
  match v with Data (VInt n) => Ok n | _ => Raise TypeError end.

(** [a.reshape(dims)] on the shape: at most one [-1], which is inferred. *)
Definition reshape_shape (len : nat) (dims : list Z) : result (list nat) :=
  if bool_decide (Forall (λ d, -1 ≤ d)%Z dims) then
    let known := filter (λ d, d ≠ (-1)%Z) dims in
    let p := Z.to_nat (foldr Z.mul 1%Z known) in
    match length dims - length known with
    | 0 => if bool_decide (p = len) then Ok (Z.to_nat <$> dims) else Raise ValueError
    | 1 => if bool_decide (p ≠ 0 ∧ len `mod` p = 0)
           then Ok ((λ d, if bool_decide (d = (-1)%Z) then len `div` p else Z.to_nat d) <$> dims)
           else Raise ValueError
    | _ => Raise ValueError
    end
  else Raise ValueError.

Definition reshape (a : ndarray) (dims : list Z) : result ndarray :=
  sh ← reshape_shape (length (data a)) dims; Ok (NDArray sh (data a)).

Definition flatten (a : ndarray) : list F := data a.

Definition np_zeros (sh : list nat) : ndarray :=
  NDArray sh (replicate (size_of sh) fzero).

Definition zeros_like (a : ndarray) : ndarray := np_zeros (shape a).

(** [np.sum]: accumulation from zero in storage order.  In exact
    arithmetic this is the sum, whatever the order.  In binary64 NumPy
    adds eight or more contiguous elements pairwise, and its result can
    differ from this one in the last bits: the two agree where the order of
    the additions is immaterial (zeros, integers that add up exactly), and
    statements about binary64 sums are made for such inputs only. *)
Definition np_sum (xs : list F) : F := foldl fadd fzero xs.

(** *** Indexing *)

(** The position of [a[i, j]] in a two-dimensional array. *)
Definition index2 (a : ndarray) (i j : nat) : result nat :=
  match shape a with
  | [r; c] => if bool_decide (i < r ∧ j < c) then Ok (i * c + j) else Raise IndexError
  | _ => Raise IndexError
  end.

(** [a[i, j]] *)
Definition item2 (a : ndarray) (i j : nat) : result F :=
  k ← index2 a i j;
  match data a !! k with Some x => Ok x | None => Raise IndexError end.

(** [a[i, j] = f(a[i, j])] *)
Definition update2 (f : F → F) (a : ndarray) (i j : nat) : result ndarray :=
  k ← index2 a i j;
  match data a !! k with
  | Some x => Ok (NDArray (shape a) (<[k := f x]> (data a)))
  | None => Raise IndexError
  end.

(** [a[i, j] -= x] and [a[i, j] += x] *)
Definition isub (a : ndarray) (i j : nat) (x : F) : result ndarray :=
  update2 (λ y, y - x)%F a i j.
Definition iadd (a : ndarray) (i j : nat) (x : F) : result ndarray :=
  update2 (λ y, y + x)%F a i j.

(** [v[i]] used as a number.  On an array with more dimensions the item
    is itself an array: one of a single element is still accepted where a
    number is stored (by the versions of NumPy that only deprecate it;
    later ones raise [ValueError]), any other raises [ValueError] there.
    The rate arrays of the statements have one dimension. *)
Definition getitem1 (v : attr) (i : nat) : result F :=
  match v with
  | Data (VArray a) =>
      match shape a with
      | n :: rest =>
          if bool_decide (i < n) then
            if bool_decide (size_of rest = 1) then
              match data a !! (i * size_of rest) with
              | Some x => Ok x
              | None => Raise IndexError
              end
            else Raise ValueError
          else Raise IndexError
      | [] => Raise IndexError
      end
  | _ => Raise TypeError
  end.

(** [v[i, j]] used as a number. *)
Definition getitem2 (v : attr) (i j : nat) : result F :=
  match v with
  | Data (VArray a) =>
      match shape a with
      | r :: c :: rest =>
          if bool_decide (i < r ∧ j < c) then
            if bool_decide (size_of rest = 1) then
              match data a !! ((i * c + j) * size_of rest) with
              | Some x => Ok x
              | None => Raise IndexError
              end
            else Raise ValueError
          else Raise IndexError
      | _ => Raise IndexError
      end
  | _ => Raise TypeError
  end.

(** The operand of [row += v] for a row of [c] elements, broadcast to
    the row's shape. *)
Definition broadcast_row (v : attr) (c : nat) : result (list F) :=
  match v with
  | Data (VInt n) => Ok (replicate c (of_Z n))
  | Data (VFloat x) => Ok (replicate c x)
  | Data (VArray a) =>
      match shape a, data a with
      | [], x :: _ => Ok (replicate c x)
      | [n], x :: _ =>
          if bool_decide (n = c) then Ok (take c (data a))
          else if bool_decide (n = 1) then Ok (replicate c x)
          else Raise ValueError
      | [n], [] => if bool_decide (n = c) then Ok [] else Raise ValueError
      | _, _ => Raise ValueError
      end
  | _ => Raise TypeError
  end.

(** [dpop[0, :]], the view that [+=] then updates *)
Definition row0 (dpop : ndarray) : result nat :=
  match shape dpop with
  | [r; c] => if bool_decide (0 < r) then Ok c else Raise IndexError
  | _ => Raise IndexError
  end.

(** [dpop[0, :] += v] *)
Definition iadd_row0 (dpop : ndarray) (c : nat) (v : attr) : result ndarray :=
  xs ← broadcast_row v c;
  Ok (NDArray (shape dpop)
        (zip_with fadd (take c (data dpop)) xs ++ drop c (data dpop))).

(** ** The derivative function *)

(** Lines 107-113: the cross-training transfers out of one cell. *)
Definition cross_training (self : gmap string attr)
    (rank specialty : nat) (current_pop : F) (dpop : ndarray) : result ndarray :=
  num_specialties ← getattr self "num_specialties" ≫= as_int;
  for_in (range num_specialties) (λ target_specialty dpop,
    if bool_decide (target_specialty ≠ specialty) then
      m ← getattr self "cross_training_matrix";
      transfer_rate ← getitem2 m specialty target_specialty;
      let transfer := (current_pop * transfer_rate * dec 5 100)%F in
      dpop ← isub dpop rank specialty transfer;
      iadd dpop rank target_specialty transfer
    else Ok dpop) dpop.

(** Lines 94-113: the body of the two loops, for one cell. *)
Definition cell (self : gmap string attr) (pop : ndarray)
    (rank specialty : nat) (dpop : ndarray) : result ndarray :=
  current_pop ← item2 pop rank specialty;
  rates ← getattr self "attrition_rates";
  rate ← getitem1 rates rank;
  let attrition := (current_pop * rate)%F in
  dpop ← isub dpop rank specialty attrition;
  num_ranks ← getattr self "num_ranks" ≫= as_int;
  dpop ← (if bool_decide (Z.of_nat rank < num_ranks - 1)%Z then
            rates ← getattr self "promotion_rates";
            rate ← getitem1 rates rank;
            let promotion_outflow := (current_pop * rate)%F in
            dpop ← isub dpop rank specialty promotion_outflow;
            iadd dpop (rank + 1) specialty promotion_outflow
          else Ok dpop);
  cross_training self rank specialty current_pop dpop.

(** Lines 81-115.  The time [t] is not used. *)
Definition workforce_ode (self : gmap string attr) (t : F) (pop_flat : list F) :
    result (list F) :=
  num_ranks ← getattr self "num_ranks";
  num_specialties ← getattr self "num_specialties";
  num_ranks ← as_int num_ranks;
  num_specialties ← as_int num_specialties;
  pop ← reshape (NDArray [length pop_flat] pop_flat) [num_ranks; num_specialties];
  let dpop := zeros_like pop in
  c ← row0 dpop;
  recruitment_rates ← getattr self "recruitment_rates";
  dpop ← iadd_row0 dpop c recruitment_rates;
  num_ranks ← getattr self "num_ranks" ≫= as_int;
  dpop ← for_in (range num_ranks) (λ rank dpop,
    num_specialties ← getattr self "num_specialties" ≫= as_int;
    for_in (range num_specialties) (λ specialty dpop,
      cell self pop rank specialty dpop) dpop) dpop;
  Ok (flatten dpop).

(** ** The store of arrays *)

(** Arrays are objects: a name denotes a location of the store, and an
    assignment to an element updates the array there.  A new array is
    placed after the ones that exist. *)
Definition M (A : Type) : Type := list ndarray → result A * list ndarray.

#[global] Instance M_ret : MRet M := λ _ a h, (Ok a, h).
#[global] Instance M_bind : MBind M := λ _ _ f m h,
  match m h with
  | (Ok a, h') => f a h'
  | (Raise e, h') => (Raise e, h')
  end.

Definition lift {A} (r : result A) : M A := λ h, (r, h).

Definition alloc (a : ndarray) : M nat := λ h, (Ok (length h), h ++ [a]).

Definition load (l : nat) : M ndarray := λ h,
  match h !! l with
  | Some a => (Ok a, h)
  | None => (Raise AttributeError, h)
  end.

(** [a[i] = x] on the one-dimensional array at [l] *)
Definition store_item (l i : nat) (x : F) : M unit := λ h,
  match h !! l with
  | Some a =>
      if bool_decide (shape a = [length (data a)] ∧ i < length (data a))
      then (Ok (), <[l := NDArray (shape a) (<[i := x]> (data a))]> h)
      else (Raise IndexError, h)
  | None => (Raise AttributeError, h)
  end.

(** [a[i]] on the one-dimensional array at [l] *)
Definition load_item (l i : nat) : M F :=
  a ← load l;
  lift (match shape a, data a !! i with
        | [_], Some x => Ok x
        | _, _ => Raise IndexError
        end).

(** [len(a)] *)
Definition len (l : nat) : M nat :=
  a ← load l;
  lift (match shape a with n :: _ => Ok n | [] => Raise TypeError end).

Fixpoint for_inM {A} (xs : list A) (body : A → M unit) : M unit :=
  match xs with
  | [] => mret ()
  | x :: xs' => body x ;; for_inM xs' body
  end.

(** A view [a[t]] of the array at [base]: it shares the array's storage,
    which it reads from [start] on. *)
Record view := View { base : nat; start : nat; vshape : list nat }.

(** [a[t]] *)
Definition subarray (l t : nat) : M view :=
  a ← load l;
  lift (match shape a with
        | n :: rest =>
            if bool_decide (t < n) then Ok (View l (t * size_of rest) rest)
            else Raise IndexError
        | [] => Raise IndexError
        end).

(** The elements a view shows, in storage order. *)
Definition elements (v : view) : M (list F) :=
  a ← load (base v);
  mret (take (size_of (vshape v)) (drop (start v) (data a))).

(** The elements of [v[:, j]]. *)
Definition column (sh : list nat) (xs : list F) (j : nat) : result (list F) :=
  match sh with
  | r :: c :: rest =>
      if bool_decide (j < c)
      then Ok (concat ((λ i, take (size_of rest) (drop ((i * c + j) * size_of rest) xs))
                         <$> seq 0 r))
      else Raise IndexError
  | _ => Raise IndexError
  end.

(** The elements of [v[0:k, :]] and of [v[k:, :]]. *)
Definition rows_until (sh : list nat) (xs : list F) (k : nat) : result (list F) :=
  match sh with
  | r :: c :: rest => Ok (take (k * (c * size_of rest)) xs)
  | _ => Raise IndexError
  end.
Definition rows_from (sh : list nat) (xs : list F) (k : nat) : result (list F) :=
  match sh with
  | r :: c :: rest => Ok (drop (k * (c * size_of rest)) xs)
  | _ => Raise IndexError
  end.

(** [np.sum(v)], [np.sum(v[:, j])], [np.sum(v[0:k, :])], [np.sum(v[k:, :])] *)
Definition sum_view (v : view) : M F :=
  xs ← elements v; mret (np_sum xs).
Definition sum_column (v : view) (j : nat) : M F :=
  xs ← elements v; ys ← lift (column (vshape v) xs j); mret (np_sum ys).
Definition sum_rows_until (v : view) (k : nat) : M F :=
  xs ← elements v; ys ← lift (rows_until (vshape v) xs k); mret (np_sum ys).
Definition sum_rows_from (v : view) (k : nat) : M F :=
  xs ← elements v; ys ← lift (rows_from (vshape v) xs k); mret (np_sum ys).

(** Python's [max(x, 1)]: the second argument is returned when it
    compares greater than the first, the first otherwise (so a NaN
    stays). *)
Definition py_max1 (x : F) : F := if fltb x fone then fone else x.

(** ** The metrics reducer *)

(** Lines 149-166: the body of the loop. *)
Definition metrics_step (population : nat) (m : metrics nat) (t : nat) : M unit :=
  pop ← subarray population t;
  total ← sum_view pop;
  store_item (total_force m) t total;;
  combat ← sum_column pop 0;
  total ← load_item (total_force m) t;
  store_item (combat_ratio m) t (combat / total)%F;;
  technical ← sum_column pop 1;
  total ← load_item (total_force m) t;
  store_item (technical_ratio m) t (technical / total)%F;;
  support ← sum_column pop 2;
  total ← load_item (total_force m) t;
  store_item (support_ratio m) t (support / total)%F;;
  junior ← sum_rows_until pop 3;
  senior ← sum_rows_from pop 3;
  store_item (junior_to_senior_ratio m) t (junior / py_max1 senior)%F;;
  store_item (experienced_personnel m) t senior.

(** Lines 134-168. *)
Definition calculate_metrics (time population : nat) : M (metrics nat) :=
  num_steps ← len time;
  total_force ← alloc (np_zeros [num_steps]);
  combat_ratio ← alloc (np_zeros [num_steps]);
  technical_ratio ← alloc (np_zeros [num_steps]);
  support_ratio ← alloc (np_zeros [num_steps]);
  junior_to_senior_ratio ← alloc (np_zeros [num_steps]);
  experienced_personnel ← alloc (np_zeros [num_steps]);
  let m := Metrics total_force combat_ratio technical_ratio support_ratio
             junior_to_senior_ratio experienced_personnel in
  for_inM (seq 0 num_steps) (metrics_step population m);;
  mret m.

(** ** The simulation entry point *)

(** [np.arange(0, stop, step)] on floats: [ceil((stop - 0) / step)]
    points; the first is the start, the second [0 + step], and the one at
    [i >= 2] is [0 + i * delta] with [delta] the difference of the first
    two.  A zero [step] raises in the division.  When the quotient is zero
    although [stop - 0] is not (an infinite step, or an underflow), NumPy
    takes one point if the quotient is [0.0] and none if it is [-0.0].  A
    length that is not a number raises (like an infinite one, which the
    model does not tell apart); the limit on the size of an array is not
    modelled. *)
Definition np_arange0 (stop step : F) : result (list F) :=
  if feqb step fzero then Raise ZeroDivisionError else
  let span := (stop - fzero)%F in
  let quotient := (span / step)%F in
  match fceil quotient with
  | None => Raise ValueError
  | Some n =>
      let n :=
        if feqb quotient fzero && negb (feqb span fzero)
        then (if fsignbit quotient then 0 else 1)%Z
        else n in
      let next := (fzero + step)%F in
      let delta := (next - fzero)%F in
      Ok ((λ i, match i with
                | 0 => fzero
                | 1 => next
                | _ => (fzero + of_Z (Z.of_nat i) * delta)%F
                end) <$> seq 0 (Z.to_nat n))
  end.

(** [a.T] for an array of at most two dimensions. *)
Definition transpose (a : ndarray) : ndarray :=
  match shape a with
  | [r; c] =>
      NDArray [c; r]
        (mjoin ((λ j, omap (λ i, data a !! (i * c + j)) (seq 0 r)) <$> seq 0 c))
  | _ => a
  end.

(** [v.flatten()] *)
Definition py_flatten (v : attr) : result (list F) :=
  match v with
  | Data (VArray a) => Ok (flatten a)
  | _ => Raise AttributeError
  end.

(** Calling what the lookup of the method [name] gave.  Data is not
    callable; a bound method is stored under another name by no code of
    the model, and is refused here. *)
Definition expect_method (name : string) (v : attr) : result unit :=
  match v with
  | Method m => if bool_decide (m = name) then Ok () else Raise TypeError
  | Data _ => Raise TypeError
  end.

(** What [solve_ivp] returns, as far as the program can read it: the
    states [y] and the solver's own verdict, which is [success = False]
    with a negative [status] when the integration failed.  The states are
    an array (one row per component, one column per time point reached)
    or, when [t_eval] is given and no time point was reached, the empty
    Python list that SciPy leaves in their place. *)
Inductive states :=
| StateArray (y : ndarray)
| EmptyList.

Record OdeResult := {
  sol_t : list F;
  sol_y : states;
  sol_status : Z;
  sol_success : bool;
}.

(** [solution.y.T]: an array has the attribute [T], a list has not. *)
Definition dot_T (y : states) : result ndarray :=
  match y with
  | StateArray a => Ok (transpose a)
  | EmptyList => Raise AttributeError
  end.

Section Simulation.

(** SciPy's [solve_ivp(fun, t_span, y0, t_eval=..., method='RK45')], an
    external collaborator: it may call [fun], return a result or raise. *)
Variable solve_ivp :
  (F → list F → result (list F)) → F * F → list F → list F → result OdeResult.

(** The contents of the six arrays of [metrics] in the store [h]. *)
Definition read_metrics (h : list ndarray) (m : metrics nat) : option (metrics ndarray) :=
  a1 ← h !! total_force m;
  a2 ← h !! combat_ratio m;
  a3 ← h !! technical_ratio m;
  a4 ← h !! support_ratio m;
  a5 ← h !! junior_to_senior_ratio m;
  a6 ← h !! experienced_personnel m;
  Some (Metrics a1 a2 a3 a4 a5 a6).

(** Lines 53-132.  The two arrays handed to [calculate_metrics] are the
    first two objects of a store of their own; the triple returned holds
    the contents of the arrays after the call. *)
Definition simulate (self : gmap string attr) (years dt : F) :
    result (list F * ndarray * metrics ndarray) :=
  time_points ← np_arange0 years dt;
  let num_steps := length time_points in
  initial_population ← getattr self "initial_population";
  initial_pop_flat ← py_flatten initial_population;
  solution ← solve_ivp (workforce_ode self) (fzero, years) initial_pop_flat time_points;
  states_T ← dot_T (sol_y solution);
  num_ranks ← getattr self "num_ranks";
  num_specialties ← getattr self "num_specialties";
  num_ranks ← as_int num_ranks;
  num_specialties ← as_int num_specialties;
  population_over_time ← reshape states_T [Z.of_nat num_steps; num_ranks; num_specialties];
  getattr self "calculate_metrics" ≫= expect_method "calculate_metrics";;
  let h := [NDArray [num_steps] time_points; population_over_time] in
  let '(m, h') := calculate_metrics 0 1 h in
  m ← m;
  match h' !! 0, h' !! 1, read_metrics h' m with
  | Some time, Some population, Some metrics => Ok (data time, population, metrics)
  | _, _, _ => Raise AttributeError
  end.

(** ** The scenario runner *)

(** [d[key] = v] on a dictionary, which keeps its keys in the order of
    their first insertion. *)
Fixpoint dict_set {A} (d : list (string * A)) (key : string) (v : A) : list (string * A) :=
  match d with
  | [] => [(key, v)]
  | (k, w) :: d' => if bool_decide (k = key) then (k, v) :: d' else (k, w) :: dict_set d' key v
  end.

Definition warning (key : string) : string :=
  ("Warning: Parameter '" +:+ key +:+ "' not recognized.")%string.

(** The model, the dictionary [original_params] and the lines printed. *)
Record scenario_state := ScenarioState {
  st_self : gmap string attr;
  st_original : list (string * attr);
  st_out : list string;
}.

(** Lines 258-263: the body of the first loop. *)
Definition override (st : scenario_state) (kv : string * value) : scenario_state :=
  let '(key, v) := kv in
  if hasattr (st_self st) key then
    match getattr (st_self st) key with
    | Ok old =>
        ScenarioState (setattr (st_self st) key (Data v))
          (dict_set (st_original st) key old) (st_out st)
    | Raise _ => st
    end
  else ScenarioState (st_self st) (st_original st) (st_out st ++ [warning key]).

(** Lines 269-270: the second loop. *)
Definition restore (self : gmap string attr) (original_params : list (string * attr)) :
    gmap string attr :=
  foldl (λ self kv, setattr self kv.1 kv.2) self original_params.

(** Lines 238-272, with the default time step of [simulate].  The result
    is what the call returns or raises, the model as the call leaves it,
    and the lines printed. *)
Definition run_scenario (self : gmap string attr) (scenario_name : string) (years : F)
    (kwargs : list (string * value)) :
    result (list F * ndarray * metrics ndarray) * gmap string attr * list string :=
  let st := foldl override (ScenarioState self [] []) kwargs in
  let results :=
    getattr (st_self st) "simulate" ≫= expect_method "simulate";;
    simulate (st_self st) years (dec 1 10) in
  match results with
  | Ok results => (Ok results, restore (st_self st) (st_original st), st_out st)
  | Raise e => (Raise e, st_self st, st_out st)
  end.

End Simulation.

(** ** The default model: [__init__] *)

Definition mat (rows : list (list F)) : ndarray :=
  NDArray [length rows; length (default [] (head rows))] (concat rows).
Definition vec (xs : list F) : ndarray := NDArray [length xs] xs.

Definition initial_population_default : ndarray :=
  mat (map (map of_Z)
    [ [1000; 1200; 800]; [900; 1000; 700]; [700; 800; 600];
      [500; 600; 400]; [300; 400; 200]; [100; 150; 80] ]%Z).

Definition recruitment_rates_default : list F := map of_Z [100; 120; 80]%Z.
Definition promotion_rates_default : list F :=
  [dec 3 10; dec 25 100; dec 2 10; dec 15 100; dec 1 10; of_Z 0].
Definition attrition_rates_default : list F :=
  [dec 15 100; dec 12 100; dec 10 100; dec 8 100; dec 5 100; dec 15 100].
Definition training_times_default : list F := [dec 5 10; dec 75 100; dec 33 100].
Definition cross_training_default : list (list F) :=
  [ [dec 90 100; dec 5 100; dec 5 100];
    [dec 5 100; dec 90 100; dec 5 100];
    [dec 5 100; dec 5 100; dec 90 100] ].

Definition MilitaryWorkforceModel : gmap string attr :=
  list_to_map (prod_map id Data <$>
    [ ("num_ranks", VInt 6);
      ("num_specialties", VInt 3);
      ("initial_population", VArray initial_population_default);
      ("recruitment_rates", VArray (vec recruitment_rates_default));
      ("promotion_rates", VArray (vec promotion_rates_default));
      ("attrition_rates", VArray (vec attrition_rates_default));
      ("training_times", VArray (vec training_times_default));
      ("max_service_years", VInt 20);
      ("cross_training_matrix", VArray (mat cross_training_default)) ]%string).

End Model.

Arguments ndarray F : clear implicits.
Arguments value F : clear implicits.
Arguments attr F : clear implicits.
Arguments M F A : clear implicits.
Arguments view : clear implicits.
Arguments states F : clear implicits.
Arguments OdeResult F : clear implicits.
Arguments scenario_state F : clear implicits.

(** ** Concrete models and inputs *)

(** The default model and its initial state in binary64 and in exact
    arithmetic. *)
Definition model64 : gmap string (attr float) := MilitaryWorkforceModel.
Definition grid64 : list float := flatten initial_population_default.
Definition modelQ : gmap string (attr Qc) := MilitaryWorkforceModel.
Definition gridQ : list Qc := flatten initial_population_default.

(** A model with every recruitment rate and every attrition rate set to
    zero (three specialties, six ranks). *)
Definition without_flows `{!Scalar F} (self : gmap string (attr F)) : gmap string (attr F) :=
  setattr (setattr self "recruitment_rates" (Data (VArray (vec (replicate 3 fzero)))))
    "attrition_rates" (Data (VArray (vec (replicate 6 fzero)))).

(** The exact sum of the values of a list of finite doubles. *)
Definition rational_sum (xs : list float) : option Q :=
  foldr (λ x acc, q ← float_to_Q x; s ← acc; Some (Qred (q + s))) (Some 0%Q) xs.

(** A time series of a single snapshot, as the first two objects of a
    store: the time points [[0]] and the population. *)
Definition one_snapshot `{!Scalar F} (grid : list F) : list (ndarray F) :=
  [NDArray [1] [fzero]; NDArray [1; 6; 3] grid].

(** A solver that gives up: it reports failure, and its states are NaN. *)
Definition nan64 : float := (0 / 0)%float.
Definition failed_solver (f : float → list float → result (list float))
    (t_span : float * float) (y0 t_eval : list float) : result (OdeResult float) :=
  Ok {| sol_t := t_eval;
        sol_y := StateArray (NDArray [length y0; length t_eval]
                               (replicate (length y0 * length t_eval) nan64));
        sol_status := (-1)%Z;
        sol_success := false |}.


(** The horizon [3 * 0.1] and the step [0.1], as doubles. *)
Definition step64 : float := dec 1 10.
Definition horizon64 : float := (3 * step64)%float.

(** ** Predicates of the statements *)

Section Predicates.
Context {F : Type} `{!Scalar F}.

(** [keeps n m Q]: run in a store of at least [n] arrays, the command [m]
    leaves the first [n] as they are, removes none, and returns (when it
    does not raise) a value that satisfies [Q]. *)
Definition keeps {A} (n : nat) (m : M F A) (Q : A → Prop) : Prop :=
  ∀ h, n ≤ length h →
    take n (m h).2 = take n h ∧ length h ≤ length (m h).2 ∧
    ∀ a, (m h).1 = Ok a → Q a.

(** A well-formed array of [r] rows and [c] columns. *)
Definition grid (r c : nat) (a : ndarray F) : Prop :=
  shape a = [r; c] ∧ length (data a) = r * c.

End Predicates.

(** A model of [R] ranks and [S] specialties whose attributes have the
    shapes the derivative function expects. *)
Definition configured {F : Type} (self : gmap string (attr F)) (R S : nat)
    (recruitment promotion attrition cross_training : list F) : Prop :=
  0 < R ∧
  self !! "num_ranks" = Some (Data (VInt (Z.of_nat R))) ∧
  self !! "num_specialties" = Some (Data (VInt (Z.of_nat S))) ∧
  self !! "recruitment_rates" = Some (Data (VArray (NDArray [S] recruitment))) ∧
  length recruitment = S ∧
  self !! "promotion_rates" = Some (Data (VArray (NDArray [R] promotion))) ∧
  length promotion = R ∧
  self !! "attrition_rates" = Some (Data (VArray (NDArray [R] attrition))) ∧
  length attrition = R ∧
  self !! "cross_training_matrix" = Some (Data (VArray (NDArray [S; S] cross_training))) ∧
  length cross_training = S * S.

(** The invariant of the loops of the derivative function when nothing
    enters or leaves: a well-formed grid whose cells sum to 0. *)
Definition balanced (R S : nat) (d : ndarray Qc) : Prop :=
  grid R S d ∧ np_sum (data d) = 0%Qc.

(** A solver of the exact model that gives up at once. *)
Definition refusing_solver (f : Qc → list Qc → result (list Qc))
    (t_span : Qc * Qc) (y0 t_eval : list Qc) : result (OdeResult Qc) :=
  Raise (SolverError (-1)).

(** The default cross-training matrix with its diagonal set to zero. *)
Definition cross_training_no_diagonal : list (list float) :=
  [ [0%float; dec 5 100; dec 5 100];
    [dec 5 100; 0%float; dec 5 100];
    [dec 5 100; dec 5 100; 0%float] ].

(** The overrides of a scenario: a known attribute and an unknown name. *)
Definition scenario_kwargs : list (string * value float) :=
  [ ("recruitment_rates", VArray (vec (map of_Z [150; 180; 120]%Z)));
    ("retention_bonus", VFloat (dec 5 100)) ]%string.

(** ** The metrics of one snapshot *)

Section Snapshots.
Context {F : Type} `{!Scalar F}.

(** The cells of [a[t]], in storage order. *)
Definition snapshot (a : ndarray F) (t : nat) : list F :=
  take (size_of (tail (shape a))) (drop (t * size_of (tail (shape a))) (data a)).

(** The cells of column [j] of a snapshot of [r] rows and [c] columns of
    [k] cells each. *)
Definition column_cells (r c k : nat) (xs : list F) (j : nat) : list F :=
  concat ((λ i, take k (drop ((i * c + j) * k) xs)) <$> seq 0 r).

(** What lines 153-166 store for a snapshot [xs] of that shape. *)
Definition specialty_ratio (r c k : nat) (xs : list F) (j : nat) : F :=
  (np_sum (column_cells r c k xs j) / np_sum xs)%F.
Definition junior (c k : nat) (xs : list F) : F := np_sum (take (3 * (c * k)) xs).
Definition senior (c k : nat) (xs : list F) : F := np_sum (drop (3 * (c * k)) xs).
Definition junior_senior_ratio (c k : nat) (xs : list F) : F :=
  (junior c k xs / py_max1 (senior c k xs))%F.

(** The array of the values of [g] at the time indices [0 .. n-1]. *)
Definition series (n : nat) (g : nat → F) : ndarray F := NDArray [n] (g <$> seq 0 n).

(** The six arrays of [metrics] for the first [n] snapshots of [a], whose
    snapshots have [r] rows and [c] columns of [k] cells. *)
Definition metrics_of (n r c k : nat) (a : ndarray F) : list (ndarray F) :=
  [ series n (λ t, np_sum (snapshot a t));
    series n (λ t, specialty_ratio r c k (snapshot a t) 0);
    series n (λ t, specialty_ratio r c k (snapshot a t) 1);
    series n (λ t, specialty_ratio r c k (snapshot a t) 2);
    series n (λ t, junior_senior_ratio c k (snapshot a t));
    series n (λ t, senior c k (snapshot a t)) ].

(** The first [t] values of [g], then zeros up to length [n]. *)
Definition filled (n t : nat) (g : nat → F) : ndarray F :=
  NDArray [n] ((g <$> seq 0 t) ++ replicate (n - t) fzero).

End Snapshots.

(** The value at index [t] of the array at location [l] of a store. *)
Definition metric_at {F : Type} (h : list (ndarray F)) (l t : nat) : option F :=
  a ← h !! l; data a !! t.

(** ** More concrete inputs *)

(** The exact default model with every rate but recruitment set to zero. *)
Definition recruitment_only : gmap string (attr Qc) :=
  setattr (setattr (setattr modelQ
    "promotion_rates" (Data (VArray (vec (replicate 6 0%Qc)))))
    "attrition_rates" (Data (VArray (vec (replicate 6 0%Qc)))))
    "cross_training_matrix" (Data (VArray (NDArray [3; 3] (replicate 9 0%Qc)))).

(** A series of one snapshot of six ranks and two specialties. *)
Definition two_specialties : list (ndarray float) :=
  [NDArray [1] [0%float]; NDArray [1; 6; 2] (replicate 12 1%float)].

(** A store that holds nothing but an empty array of time points. *)
Definition no_time_point : list (ndarray float) := [NDArray [0] []].

(** A solver that returns the initial state alone, whatever the time
    points asked for. *)
Definition short_solver (f : float → list float → result (list float))
    (t_span : float * float) (y0 t_eval : list float) : result (OdeResult float) :=
  Ok {| sol_t := take 1 t_eval;
        sol_y := StateArray (NDArray [length y0; 1] y0);
        sol_status := (-1)%Z;
        sol_success := false |}.


(** A solver that returns the initial state at every time point. *)
Definition steady_solver {F : Type} (f : F → list F → result (list F))
    (t_span : F * F) (y0 t_eval : list F) : result (OdeResult F) :=
  Ok {| sol_t := t_eval;
        sol_y := StateArray (transpose (NDArray [length t_eval; length y0]
                                          (mjoin (replicate (length t_eval) y0))));
        sol_status := 0%Z;
        sol_success := true |}.

(** The default model told that it has no rank. *)
Definition no_rank : gmap string (attr float) :=
  setattr model64 "num_ranks" (Data (VInt 0)).

(** The exact default model with two recruitment rates for its three
    specialties. *)
Definition two_recruitment_rates : gmap string (attr Qc) :=
  setattr modelQ "recruitment_rates" (Data (VArray (vec [of_Z 100; of_Z 120]))).

(** * Properties *)

(** ** The error monad and loops *)

Lemma bind_ok {A B} (m : result A) (f : A → result B) b :
  m ≫= f = Ok b ↔ ∃ a, m = Ok a ∧ f a = Ok b.
Proof.
  destruct m as [a|e]; simpl; split.
  - eauto.
  - by intros (? & [= <-] & ?).
  - done.
  - by intros (? & [=] & _).
Qed.

Lemma ok_bind {A B} (a : A) (f : A → result B) : Ok a ≫= f = f a.
Proof. reflexivity. Qed.

Lemma for_in_ext {A B} (xs : list A) (f g : A → B → result B) acc :
  (∀ x b, x ∈ xs → f x b = g x b) → for_in xs f acc = for_in xs g acc.
Proof.
  revert acc. induction xs as [|x xs IH]; intros acc Hfg; [done|].
  simpl. rewrite Hfg by left.
  destruct (g x acc) as [acc'|e]; simpl; [|done].
  apply IH. intros y b Hy. apply Hfg. by right.
Qed.

(** A loop whose body keeps an invariant and never raises runs to its
    end, and the invariant holds there. *)
Lemma for_in_inv {A B} (P : B → Prop) (xs : list A) (f : A → B → result B) acc :
  P acc →
  (∀ x b, x ∈ xs → P b → ∃ b', f x b = Ok b' ∧ P b') →
  ∃ b', for_in xs f acc = Ok b' ∧ P b'.
Proof.
  revert acc. induction xs as [|x xs IH]; intros acc Hacc Hf; [by exists acc|].
  destruct (Hf x acc) as (b & Hb & HP); [by left|done|].
  simpl. rewrite Hb. simpl. apply IH; [done|].
  intros y c Hy. apply Hf. by right.
Qed.

Lemma elem_of_range (i : nat) (n : Z) : i ∈ range n ↔ (Z.of_nat i < n)%Z.
Proof. unfold range. rewrite elem_of_seq. lia. Qed.

(** ** Attribute lookup *)

(** The names inherited from [object] and from the class are [special];
    the attributes [__init__] sets and the other methods are not. *)
Lemma special_names :
  Forall (λ name, special name = true)
    ["__class__"; "__dict__"; "__doc__"; "__module__"; "__weakref__"; "__init__";
     "__repr__"; "__eq__"; "__hash__"; "__setattr__"]%string ∧
  Forall (λ name, special name = false)
    ["num_ranks"; "num_specialties"; "initial_population"; "recruitment_rates";
     "promotion_rates"; "attrition_rates"; "training_times"; "max_service_years";
     "cross_training_matrix"; "simulate"; "calculate_metrics"; "plot_results";
     "run_scenario"; "_private"; ""]%string.
Proof. split; by repeat constructor. Qed.

Section Lookup.
Context {F : Type} `{!Scalar F}.
Implicit Types self : gmap string (attr F).

Lemma getattr_setattr_eq self name v : getattr (setattr self name v) name = Ok v.
Proof. unfold getattr, setattr. by rewrite lookup_insert_eq. Qed.

Lemma getattr_setattr_ne self name name' v :
  name ≠ name' → getattr (setattr self name v) name' = getattr self name'.
Proof. intros. unfold getattr, setattr. by rewrite lookup_insert_ne. Qed.

Lemma getattr_lookup self name v : self !! name = Some v → getattr self name = Ok v.
Proof. intros Hv. unfold getattr. by rewrite Hv. Qed.


Lemma hasattr_setattr_ne self name name' v :
  name ≠ name' → hasattr (setattr self name v) name' = hasattr self name'.
Proof. intros. unfold hasattr. by rewrite getattr_setattr_ne. Qed.

End Lookup.

(** ** The derivative function reads no diagonal entry *)

Section Diagonal.
Context {F : Type} `{!Scalar F}.
Implicit Types self : gmap string (attr F).

(** Both sides run the same first command: continue with its result. *)
Ltac same_bind :=
  repeat match goal with
  | |- ?m ≫= _ = ?m ≫= _ => destruct m; simpl; [|reflexivity]
  end.

Lemma cross_training_off_diagonal self (m1 m2 : attr F) rank specialty c dpop :
  (∀ s s', s ≠ s' → getitem2 m1 s s' = getitem2 m2 s s') →
  cross_training (setattr self "cross_training_matrix" m1) rank specialty c dpop =
  cross_training (setattr self "cross_training_matrix" m2) rank specialty c dpop.
Proof.
  intros Hoff. unfold cross_training.
  rewrite !(getattr_setattr_ne _ _ "num_specialties") by discriminate.
  same_bind. apply for_in_ext. intros target d _.
  case_bool_decide; [|done].
  rewrite !getattr_setattr_eq. simpl. by rewrite Hoff.
Qed.

Lemma cell_off_diagonal self (m1 m2 : attr F) pop rank specialty dpop :
  (∀ s s', s ≠ s' → getitem2 m1 s s' = getitem2 m2 s s') →
  cell (setattr self "cross_training_matrix" m1) pop rank specialty dpop =
  cell (setattr self "cross_training_matrix" m2) pop rank specialty dpop.
Proof.
  intros Hoff. unfold cell.
  rewrite !(getattr_setattr_ne _ _ "attrition_rates"),
    !(getattr_setattr_ne _ _ "num_ranks"),
    !(getattr_setattr_ne _ _ "promotion_rates") by discriminate.
  same_bind. by apply cross_training_off_diagonal.
Qed.

(** C10: two models that differ only in the value of
    [cross_training_matrix], and whose matrices give the same entry (or the
    same exception) at every pair of distinct specialties, have the same
    derivative function: the diagonal entries are never read. *)
Theorem workforce_ode_ignores_diagonal self (m1 m2 : attr F) t pop_flat :
  (∀ s s', s ≠ s' → getitem2 m1 s s' = getitem2 m2 s s') →
  workforce_ode (setattr self "cross_training_matrix" m1) t pop_flat =
  workforce_ode (setattr self "cross_training_matrix" m2) t pop_flat.
Proof.
  intros Hoff. unfold workforce_ode.
  rewrite !(getattr_setattr_ne _ _ "num_ranks"),
    !(getattr_setattr_ne _ _ "num_specialties"),
    !(getattr_setattr_ne _ _ "recruitment_rates") by discriminate.
  same_bind. f_equal. apply for_in_ext. intros rank d _.
  same_bind. apply for_in_ext. intros specialty d' _.
  by apply cell_off_diagonal.
Qed.

End Diagonal.

(** ** The store: what a command leaves in place *)

Section Frame.
Context {F : Type} `{!Scalar F}.

Lemma keeps_weaken {A} n (m : M F A) (Q Q' : A → Prop) :
  keeps n m Q → (∀ a, Q a → Q' a) → keeps n m Q'.
Proof. intros Hm HQ h Hh. destruct (Hm h Hh) as (? & ? & ?). eauto. Qed.

Lemma keeps_ret {A} n (a : A) (Q : A → Prop) : Q a → keeps n (mret a : M F A) Q.
Proof. intros HQ h _. repeat split; [done|]. by intros ? [= <-]. Qed.

Lemma keeps_lift {A} n (r : result A) : keeps n (lift r : M F A) (λ _, True).
Proof. by intros h _. Qed.

Lemma keeps_bind {A B} n (m : M F A) (f : A → M F B) (Q : A → Prop) (R : B → Prop) :
  keeps n m Q → (∀ a, Q a → keeps n (f a) R) → keeps n (m ≫= f) R.
Proof.
  intros Hm Hf h Hh. destruct (Hm h Hh) as (Htake & Hlen & HQ).
  unfold mbind, M_bind. destruct (m h) as [[a|e] h'] eqn:Hmh; simpl in *.
  - destruct (Hf a (HQ a eq_refl) h' ltac:(lia)) as (Htake' & Hlen' & HR).
    repeat split; [congruence|lia|done].
  - repeat split; done.
Qed.

Lemma keeps_alloc n (a : ndarray F) : keeps n (alloc a) (λ l, n ≤ l).
Proof.
  intros h Hh. unfold alloc. simpl. repeat split.
  - by rewrite take_app_le.
  - rewrite length_app. lia.
  - by intros ? [= <-].
Qed.

Lemma keeps_load n l : keeps n (load (F:=F) l) (λ _, True).
Proof. intros h _. unfold load. by destruct (h !! l). Qed.

Lemma keeps_store_item n l i (x : F) : n ≤ l → keeps n (store_item l i x) (λ _, True).
Proof.
  intros Hl h _. unfold store_item. destruct (h !! l); [|done].
  case_bool_decide; [|done]. simpl. repeat split.
  - by rewrite take_insert_ge.
  - by rewrite length_insert.
Qed.

Lemma keeps_for_inM {A} n (xs : list A) (body : A → M F unit) :
  (∀ x, keeps n (body x) (λ _, True)) → keeps n (for_inM xs body) (λ _, True).
Proof.
  intros Hbody. induction xs as [|x xs IH]; simpl.
  - by apply keeps_ret.
  - eapply keeps_bind; [apply Hbody|]. by intros _ _.
Qed.

(** Commands that only read. *)
Lemma keeps_then {A B} n (m : M F A) (f : A → M F B) :
  keeps n m (λ _, True) → (∀ a, keeps n (f a) (λ _, True)) →
  keeps n (m ≫= f) (λ _, True).
Proof. intros Hm Hf. eapply keeps_bind; [exact Hm|]. intros a _. apply Hf. Qed.

Lemma keeps_done {A} n (a : A) : keeps n (mret a : M F A) (λ _, True).
Proof. by apply keeps_ret. Qed.

Lemma keeps_metrics_step n population (m : metrics nat) t :
  n ≤ total_force m → n ≤ combat_ratio m → n ≤ technical_ratio m →
  n ≤ support_ratio m → n ≤ junior_to_senior_ratio m → n ≤ experienced_personnel m →
  keeps n (metrics_step (F:=F) population m t) (λ _, True).
Proof.
  intros. unfold metrics_step, subarray, elements, sum_view, sum_column,
    sum_rows_until, sum_rows_from, load_item.
  repeat first
    [ by apply keeps_store_item
    | apply keeps_load
    | apply keeps_lift
    | apply keeps_done
    | apply keeps_then; [|intros ?] ].
Qed.

Lemma keeps_calculate_metrics n time population :
  keeps n (calculate_metrics (F:=F) time population) (λ _, True).
Proof.
  unfold calculate_metrics, len.
  eapply keeps_bind; [apply keeps_then; [apply keeps_load|intros; apply keeps_lift]|].
  intros num_steps _.
  do 6 (eapply keeps_bind; [apply keeps_alloc|]; intros ? ?).
  eapply keeps_bind; [|intros _ _; by apply keeps_ret].
  apply keeps_for_inM. intros t. by apply keeps_metrics_step.
Qed.

Lemma calculate_metrics_frame (time population : nat) (h : list (ndarray F)) :
  take (length h) (calculate_metrics time population h).2 = h.
Proof.
  destruct (keeps_calculate_metrics (length h) time population h) as (Htake & _);
    [done|].
  by rewrite Htake, firstn_all.
Qed.

(** C9: whatever the store, the time points and the population handed to
    it, and whether it returns or raises, [calculate_metrics] leaves every
    array that existed before the call as it was, the population among
    them: the store after the call begins with the store before it (the
    arrays of [metrics] are new, and only they are written). *)
Theorem calculate_metrics_leaves_population (time population : nat) (h : list (ndarray F)) :
  take (length h) (calculate_metrics time population h).2 = h.
Proof. apply calculate_metrics_frame. Qed.

End Frame.

(** ** The default model, evaluated *)

(** C4: under the default configuration and on the default initial grid,
    the rate of change of the cell (rank 0, specialty 0) is -350, in
    binary64 and in exact arithmetic alike: 100 recruited, 150 lost to
    attrition, 300 promoted, 5 transferred out to the two other
    specialties, and 3 and 2 transferred in from them. *)
Theorem derivative_of_first_cell (t64 : float) (tQ : Qc) :
  (∃ d, workforce_ode model64 t64 grid64 = Ok d ∧ d !! 0 = Some (-350)%float) ∧
  (∃ d, workforce_ode modelQ tQ gridQ = Ok d ∧ d !! 0 = Some (of_Z (-350))).
Proof.
  split.
  - eexists. split; [vm_compute; reflexivity|reflexivity].
  - eexists. split; [vm_compute; reflexivity|reflexivity].
Qed.

(** The rate of change of that cell is not the -355 of the hand
    computation, which leaves out the transfers into the cell. *)
Lemma derivative_of_first_cell_is_not_minus_355 :
  ∃ d x, workforce_ode model64 0%float grid64 = Ok d ∧ d !! 0 = Some x ∧
    x ≠ (-355)%float ∧ feqb x (of_Z (-355)) = false.
Proof.
  eexists _, _. split; [vm_compute; reflexivity|].
  split; [reflexivity|]. split; [discriminate|reflexivity].
Qed.

(** C5: on a time series that starts with the default initial grid, the
    total force at the first time point is 10430, which is also the exact
    sum of the grid. *)
Theorem total_force_of_default_grid :
  (∃ m h, calculate_metrics 0 1 (one_snapshot grid64) = (Ok m, h) ∧
     data <$> h !! total_force m = Some [10430%float]) ∧
  np_sum gridQ = of_Z 10430.
Proof.
  split.
  - eexists _, _. split; [vm_compute; reflexivity|reflexivity].
  - apply Qc_is_canon. reflexivity.
Qed.

(** The total force of the default grid is not 10530. *)
Lemma total_force_of_default_grid_is_not_10530 :
  ∃ m h x, calculate_metrics 0 1 (one_snapshot grid64) = (Ok m, h) ∧
    data <$> h !! total_force m = Some [x] ∧
    x ≠ 10530%float ∧ feqb x (of_Z 10530) = false.
Proof.
  eexists _, _, _. split; [vm_compute; reflexivity|].
  split; [reflexivity|]. split; [discriminate|reflexivity].
Qed.

(** C1, on the code: for the snapshot of eighteen zeros the total is 0,
    the junior/senior ratio is 0, and each of the three specialty ratios
    is 0/0, a NaN. *)
Theorem metrics_of_zero_grid :
  ∃ m h, calculate_metrics 0 1 (one_snapshot (replicate 18 0%float)) = (Ok m, h) ∧
    data <$> h !! total_force m = Some [0%float] ∧
    data <$> h !! combat_ratio m = Some [nan64] ∧
    data <$> h !! technical_ratio m = Some [nan64] ∧
    data <$> h !! support_ratio m = Some [nan64] ∧
    data <$> h !! junior_to_senior_ratio m = Some [0%float] ∧
    PrimFloat.is_nan nan64 = true ∧ feqb nan64 0%float = false.
Proof.
  eexists _, _. split; [vm_compute; reflexivity|].
  repeat split; reflexivity.
Qed.

(** ** The time grid in binary64 *)

(** For the horizon [3 * 0.1] and the step [0.1], both positive, the
    quotient rounds above 3: the grid has four points, the last one is the
    horizon itself, and the points are not evenly spaced. *)
Lemma time_points_reach_horizon :
  fltb 0%float horizon64 = true ∧ fltb 0%float step64 = true ∧
  ∃ t1 t2 t3, np_arange0 horizon64 step64 = Ok [0%float; t1; t2; t3] ∧
    t3 = horizon64 ∧ fltb t3 horizon64 = false ∧
    feqb (t3 - t2)%float (t2 - t1)%float = false.
Proof.
  split; [reflexivity|]. split; [reflexivity|].
  eexists _, _, _. split; [vm_compute; reflexivity|].
  repeat split; reflexivity.
Qed.

(** ** The solver's verdict *)



(** ** A scenario whose simulation raises *)

(** C2, on the code: with the override [initial_population=5] the
    simulation raises at [self.initial_population.flatten()], whatever the
    solver; [run_scenario] raises the same exception, and leaves the model
    with the override in place of the array it held before the call. *)
Theorem run_scenario_leaves_override_on_error
    (solve_ivp : (float → list float → result (list float)) → float * float →
                 list float → list float → result (OdeResult float)) :
  run_scenario solve_ivp model64 "broken" 10%float [("initial_population", VInt 5)]%string
  = (Raise AttributeError, setattr model64 "initial_population" (Data (VInt 5)), []) ∧
  model64 !! "initial_population" = Some (Data (VArray initial_population_default)) ∧
  setattr model64 "initial_population" (Data (VInt 5)) !! "initial_population"
  = Some (Data (VInt 5)).
Proof.
  split; [vm_compute; reflexivity|]. split; reflexivity.
Qed.

(** ** The scenario runner: the overrides *)

Section Overrides.
Context {F : Type} `{!Scalar F}.
Implicit Types (self : gmap string (attr F)) (st : scenario_state F).
Implicit Types (kv : string * value F) (kwargs : list (string * value F)).

Lemma elem_of_dict_set_eq {A} (d : list (string * A)) key v : (key, v) ∈ dict_set d key v.
Proof.
  induction d as [|[k w] d IH]; simpl; [by left|].
  case_bool_decide; subst; [by left|by right].
Qed.

Lemma elem_of_dict_set_ne {A} (d : list (string * A)) key v k w :
  k ≠ key → (k, w) ∈ d → (k, w) ∈ dict_set d key v.
Proof.
  intros Hne. induction d as [|[k' w'] d IH]; simpl; [by intros ?%elem_of_nil|].
  intros [[= -> ->]|Hin]%elem_of_cons.
  - rewrite bool_decide_false by done. by left.
  - case_bool_decide; right; auto.
Qed.

Lemma dict_set_keys {A} (d : list (string * A)) key v k :
  k ∈ (dict_set d key v).*1 → k = key ∨ k ∈ d.*1.
Proof.
  induction d as [|[k' w'] d IH]; simpl.
  - intros ?%list_elem_of_singleton. by left.
  - case_bool_decide; simpl; rewrite !elem_of_cons; intros [->|?]; subst; auto.
    destruct IH; auto.
Qed.

Lemma override_self_ne st kv key :
  kv.1 ≠ key → st_self (override st kv) !! key = st_self st !! key.
Proof.
  destruct kv as [k v]. simpl. intros Hne. unfold override.
  destruct (hasattr _ _); [|done].
  destruct (getattr _ _); [|done]. simpl. unfold setattr. by rewrite lookup_insert_ne.
Qed.

Lemma override_out st kv l : l ∈ st_out st → l ∈ st_out (override st kv).
Proof.
  destruct kv as [k v]. unfold override.
  destruct (hasattr _ _); [by destruct (getattr _ _)|].
  simpl. intros. apply elem_of_app. by left.
Qed.

Lemma override_original st kv k old :
  kv.1 ≠ k → (k, old) ∈ st_original st → (k, old) ∈ st_original (override st kv).
Proof.
  destruct kv as [k' v]. simpl. intros Hne Hin. unfold override.
  destruct (hasattr _ _); [|done].
  destruct (getattr _ _); [|done]. simpl. by apply elem_of_dict_set_ne.
Qed.

Lemma override_original_keys st kv k :
  k ∈ (st_original (override st kv)).*1 →
  k ∈ (st_original st).*1 ∨ (k = kv.1 ∧ hasattr (st_self st) k = true).
Proof.
  destruct kv as [k' v]. simpl. unfold override.
  destruct (hasattr (st_self st) k') eqn:Hhas; [|by left].
  destruct (getattr _ _); [|by left]. simpl.
  intros [->|?]%dict_set_keys; [by right|by left].
Qed.

Lemma overrides_self_ne kwargs st key :
  key ∉ kwargs.*1 → st_self (foldl override st kwargs) !! key = st_self st !! key.
Proof.
  revert st. induction kwargs as [|kv kwargs IH]; intros st Hkey; [done|].
  simpl in *. apply not_elem_of_cons in Hkey as [? ?].
  rewrite IH by done. by apply override_self_ne.
Qed.

Lemma overrides_out kwargs st l :
  l ∈ st_out st → l ∈ st_out (foldl override st kwargs).
Proof.
  revert st. induction kwargs as [|kv kwargs IH]; intros st Hl; [done|].
  simpl. by apply IH, override_out.
Qed.

Lemma overrides_original kwargs st k old :
  k ∉ kwargs.*1 → (k, old) ∈ st_original st →
  (k, old) ∈ st_original (foldl override st kwargs).
Proof.
  revert st. induction kwargs as [|kv kwargs IH]; intros st Hk Hin; [done|].
  simpl in *. apply not_elem_of_cons in Hk as [? ?].
  apply IH; [done|]. by apply override_original.
Qed.

Lemma overrides_original_keys kwargs st k :
  NoDup kwargs.*1 →
  k ∈ (st_original (foldl override st kwargs)).*1 →
  k ∈ (st_original st).*1 ∨ (k ∈ kwargs.*1 ∧ hasattr (st_self st) k = true).
Proof.
  revert st. induction kwargs as [|kv kwargs IH]; intros st Hnd Hk; [by left|].
  simpl in *. apply NoDup_cons in Hnd as [Hkv Hnd].
  destruct (IH _ Hnd Hk) as [Hin|[Hin Hhas]].
  - destruct (override_original_keys _ _ _ Hin) as [?|[-> ?]]; [by left|].
    right. split; [by left|done].
  - right. split; [by right|].
    rewrite <-Hhas. unfold hasattr, getattr.
    rewrite override_self_ne; [done|]. intros Heq. apply Hkv. by rewrite Heq.
Qed.

(** What the first loop does with one entry of [kwargs], the keys being
    distinct. *)
Lemma overrides_entry kwargs st key v :
  NoDup kwargs.*1 → (key, v) ∈ kwargs →
  let st' := foldl override st kwargs in
  match getattr (st_self st) key with
  | Ok old => st_self st' !! key = Some (Data v) ∧ (key, old) ∈ st_original st'
  | Raise _ => st_self st' !! key = st_self st !! key ∧ warning key ∈ st_out st'
  end.
Proof.
  revert st. induction kwargs as [|kv kwargs IH]; intros st Hnd Hin;
    [by apply elem_of_nil in Hin|].
  simpl in *. apply NoDup_cons in Hnd as [Hkv Hnd].
  apply elem_of_cons in Hin as [<-|Hin].
  - assert (key ∉ kwargs.*1) as Hkey by done.
    rewrite overrides_self_ne by done.
    unfold override, hasattr.
    destruct (getattr (st_self st) key) as [old|e] eqn:Hget; simpl.
    + unfold setattr. rewrite lookup_insert_eq. split; [done|].
      apply overrides_original; [done|]. simpl. apply elem_of_dict_set_eq.
    + split; [done|]. apply overrides_out. simpl. apply elem_of_app. right. by left.
  - assert (kv.1 ≠ key) as Hne.
    { intros <-. apply Hkv. by apply (list_elem_of_fmap_2 fst) in Hin. }
    specialize (IH (override st kv) Hnd Hin).
    unfold getattr in *. by rewrite override_self_ne in IH.
Qed.

Lemma restore_ne self (original_params : list (string * attr F)) key :
  key ∉ original_params.*1 → restore self original_params !! key = self !! key.
Proof.
  unfold restore. revert self.
  induction original_params as [|[k v] d IH]; intros self Hkey; [done|].
  simpl in *. apply not_elem_of_cons in Hkey as [? ?].
  rewrite IH by done. unfold setattr. by rewrite lookup_insert_ne.
Qed.


End Overrides.

(** ** What [simulate] returns besides the metrics *)

Section Returned.
Context {F : Type} `{!Scalar F}.
Variable solve_ivp :
  (F → list F → result (list F)) → F * F → list F → list F → result (OdeResult F).

(** The time points returned are those of [np.arange], and the population
    returned is the reshaped array of the solver's states: the call of
    [calculate_metrics] in between changes neither. *)
Lemma simulate_returns self years dt time population m :
  simulate solve_ivp self years dt = Ok (time, population, m) →
  np_arange0 years dt = Ok time ∧
  ∃ y0 solution y num_ranks num_specialties,
    solve_ivp (workforce_ode self) (fzero, years) y0 time = Ok solution ∧
    sol_y solution = StateArray y ∧
    reshape (transpose y)
      [Z.of_nat (length time); num_ranks; num_specialties] = Ok population.
Proof.
  unfold simulate. intros Hsim.
  destruct (np_arange0 years dt) as [ts|]; simpl in Hsim; [|done].
  destruct (getattr self "initial_population") as [ip|]; simpl in Hsim; [|done].
  destruct (py_flatten ip) as [y0|]; simpl in Hsim; [|done].
  destruct (solve_ivp _ _ _ _) as [sol|] eqn:Hsol; simpl in Hsim; [|done].
  destruct (sol_y sol) as [y|] eqn:Hy; simpl in Hsim; [|done].
  destruct (getattr self "num_ranks") as [nr|]; simpl in Hsim; [|done].
  destruct (getattr self "num_specialties") as [ns|]; simpl in Hsim; [|done].
  destruct (as_int nr) as [r|]; simpl in Hsim; [|done].
  destruct (as_int ns) as [s|]; simpl in Hsim; [|done].
  destruct (reshape _ _) as [pop|] eqn:Hpop; simpl in Hsim; [|done].
  destruct (_ ≫= expect_method _) as [[]|]; simpl in Hsim; [|done].
  pose proof (calculate_metrics_frame 0 1 [NDArray [length ts] ts; pop]) as Hframe.
  destruct (calculate_metrics 0 1 _) as [[mm|] h']; simpl in *; [|done].
  destruct h' as [|a0 [|a1 h']]; simpl in Hframe; try done.
  injection Hframe as -> ->. simpl in Hsim.
  destruct (read_metrics _ _); [|done]. injection Hsim as <- <- <-.
  split; [done|]. by exists y0, sol, y, r, s.
Qed.

End Returned.

(** ** The time grid in exact arithmetic *)

Lemma Qceiling_gt (x : Qc) (k : Z) :
  (k < Qceiling x)%Z ↔ (Q2Qc (inject_Z k) < x)%Qc.
Proof.
  unfold Qclt. simpl. rewrite Qred_correct. split.
  - intros Hk. eapply Qle_lt_trans; [|apply Qceiling_lt].
    rewrite <-Zle_Qle. lia.
  - intros Hk. rewrite Zlt_Qlt. eapply Qlt_le_trans; [done|apply Qle_ceiling].
Qed.

Lemma multiple_below (years dt : Qc) (k : Z) :
  (0 < dt)%Qc →
  (Q2Qc (inject_Z k) * dt < years)%Qc ↔ (Q2Qc (inject_Z k) < years / dt)%Qc.
Proof.
  intros Hdt. rewrite (Qcmult_lt_mono_pos_r _ (years / dt)%Qc dt) by done.
  rewrite test_field; [done|]. intros ->. by apply Qclt_not_eq in Hdt.
Qed.

(** The elements [np.arange] writes are the multiples of the step. *)
Lemma arange_element (dt : Qc) (i : nat) :
  match i with
  | 0 => fzero
  | 1 => (fzero + dt)%F
  | _ => (fzero + of_Z (Z.of_nat i) * ((fzero + dt) - fzero))%F
  end = (of_Z (Z.of_nat i) * dt)%F.
Proof.
  destruct i as [|[|i]]; simpl.
  - change (Q2Qc (inject_Z (Z.of_nat 0))) with 0%Qc. ring.
  - change (Q2Qc (inject_Z (Z.of_nat 1))) with 1%Qc. ring.
  - ring.
Qed.

(** In exact arithmetic a quotient by a step that is not zero is zero
    only when the span is: the grid has [ceil(years / dt)] points. *)
Lemma np_arange0_exact (years dt : Qc) :
  dt ≠ 0%Qc →
  np_arange0 years dt
  = Ok ((λ k : nat, of_Z (Z.of_nat k) * dt)%F <$> seq 0 (Z.to_nat (Qceiling (years / dt)%Qc))).
Proof.
  intros Hdt. unfold np_arange0.
  change (feqb dt fzero) with (bool_decide (dt = 0%Qc)).
  rewrite bool_decide_false by done.
  change (fceil ((years - fzero) / dt)%F)
    with (Some (Qceiling ((years - 0) / dt)%Qc)).
  cbv zeta.
  change (feqb ((years - fzero) / dt)%F fzero)
    with (bool_decide ((years - 0) / dt = 0)%Qc).
  change (feqb (years - fzero)%F fzero) with (bool_decide (years - 0 = 0)%Qc).
  assert (bool_decide ((years - 0) / dt = 0)%Qc && negb (bool_decide (years - 0 = 0)%Qc)
          = false) as ->.
  { destruct (decide (years - 0 = 0)%Qc) as [Hspan|Hspan].
    - rewrite (bool_decide_true _ Hspan). apply andb_false_r.
    - rewrite bool_decide_false; [done|]. intros Hq. apply Hspan.
      replace (years - 0)%Qc with ((years - 0) / dt * dt)%Qc by (by field).
      rewrite Hq. ring. }
  replace (years - 0)%Qc with years by ring.
  f_equal. apply list_fmap_ext. intros _ i _. apply arange_element.
Qed.

(** C6, in exact arithmetic: for a positive horizon and a positive step,
    the time points are the multiples [0 * dt], [1 * dt], ... of the step,
    in this order, and a multiple [k * dt] is among them exactly when it is
    strictly less than the horizon; these are the time points [simulate]
    returns whenever it returns. *)
Theorem time_points_exact
    (solve_ivp : (Qc → list Qc → result (list Qc)) → Qc * Qc → list Qc → list Qc →
                 result (OdeResult Qc))
    (self : gmap string (attr Qc)) (years dt : Qc) :
  (0 < years)%Qc → (0 < dt)%Qc →
  ∃ n : nat,
    np_arange0 years dt = Ok ((λ k : nat, of_Z (Z.of_nat k) * dt)%F <$> seq 0 n) ∧
    (∀ k : nat, k < n ↔ (of_Z (Z.of_nat k) * dt < years)%Qc) ∧
    (∀ time population m,
       simulate solve_ivp self years dt = Ok (time, population, m) →
       time = (λ k : nat, of_Z (Z.of_nat k) * dt)%F <$> seq 0 n).
Proof.
  intros Hyears Hdt.
  exists (Z.to_nat (Qceiling (years / dt)%Qc)).
  assert (np_arange0 years dt =
          Ok ((λ k : nat, of_Z (Z.of_nat k) * dt)%F
                <$> seq 0 (Z.to_nat (Qceiling (years / dt)%Qc)))) as Harange
    by (apply np_arange0_exact; intros ->; by apply Qclt_not_eq in Hdt).
  split; [done|]. split.
  - intros k. change (of_Z (Z.of_nat k)) with (Q2Qc (inject_Z (Z.of_nat k))).
    rewrite multiple_below by done. rewrite <-Qceiling_gt. lia.
  - intros time population m Hsim.
    apply simulate_returns in Hsim as [Hts _]. congruence.
Qed.

(** ** Conservation in exact arithmetic *)

(** *** Sums of rationals *)

Lemma foldl_Qcplus (a : Qc) (xs : list Qc) :
  foldl Qcplus a xs = (a + foldl Qcplus 0 xs)%Qc.
Proof.
  revert a. induction xs as [|x xs IH]; intros a; simpl; [ring|].
  rewrite (IH (a + x)%Qc), (IH (0 + x)%Qc). ring.
Qed.

Lemma np_sum_cons (x : Qc) (xs : list Qc) : np_sum (x :: xs) = (x + np_sum xs)%Qc.
Proof.
  unfold np_sum. simpl. change (fadd fzero x) with (0 + x)%Qc.
  change (@fadd Qc exact) with Qcplus. change (@fzero Qc exact) with 0%Qc.
  rewrite foldl_Qcplus. ring.
Qed.

Lemma np_sum_insert (xs : list Qc) (k : nat) (x y : Qc) :
  xs !! k = Some x → np_sum (<[k := y]> xs) = (np_sum xs - x + y)%Qc.
Proof.
  revert k. induction xs as [|z xs IH]; intros [|k] Hk; simplify_eq/=.
  - rewrite !np_sum_cons. ring.
  - rewrite !np_sum_cons, (IH k) by done. ring.
Qed.

Lemma np_sum_zeros (n : nat) : np_sum (replicate n (0%Qc)) = 0%Qc.
Proof.
  induction n as [|n IH]; simpl; [done|]. rewrite np_sum_cons, IH. ring.
Qed.

(** *** Updates of a grid *)

Section Grid.
Context {F : Type} `{!Scalar F}.
Implicit Types a : ndarray F.

Lemma grid_lookup r c a i j :
  grid r c a → i < r → j < c → is_Some (data a !! (i * c + j)).
Proof. intros [_ Hlen] Hi Hj. apply lookup_lt_is_Some. nia. Qed.

Lemma item2_grid r c a i j x :
  grid r c a → i < r → j < c → data a !! (i * c + j) = Some x → item2 a i j = Ok x.
Proof.
  intros [Hsh _] Hi Hj Hx. unfold item2, index2. rewrite Hsh.
  rewrite bool_decide_true by done. simpl. by rewrite Hx.
Qed.

Lemma update2_grid (f : F → F) r c a i j x :
  grid r c a → i < r → j < c → data a !! (i * c + j) = Some x →
  update2 f a i j = Ok (NDArray [r; c] (<[i * c + j := f x]> (data a))).
Proof.
  intros [Hsh _] Hi Hj Hx. unfold update2, index2. rewrite Hsh.
  rewrite bool_decide_true by done. simpl. by rewrite Hx.
Qed.

Lemma reshape_2d sh (xs : list F) (r c : nat) :
  length xs = r * c →
  reshape (NDArray sh xs) [Z.of_nat r; Z.of_nat c] = Ok (NDArray [r; c] xs).
Proof.
  intros Hlen. unfold reshape, reshape_shape. simpl.
  rewrite bool_decide_true by (repeat constructor; lia).
  rewrite !filter_cons_True, filter_nil by lia. simpl.
  rewrite bool_decide_true by nia. simpl. by rewrite !Nat2Z.id.
Qed.

Lemma getitem1_vector n (xs : list F) (i : nat) (x : F) :
  i < n → xs !! i = Some x →
  getitem1 (Data (VArray (NDArray [n] xs))) i = Ok x.
Proof.
  intros Hi Hx. unfold getitem1. simpl.
  rewrite bool_decide_true by done.
  by rewrite Nat.mul_1_r, Hx.
Qed.

Lemma getitem2_matrix r c (xs : list F) (i j : nat) (x : F) :
  i < r → j < c → xs !! (i * c + j) = Some x →
  getitem2 (Data (VArray (NDArray [r; c] xs))) i j = Ok x.
Proof.
  intros Hi Hj Hx. unfold getitem2. simpl.
  rewrite bool_decide_true by done. by rewrite Nat.mul_1_r, Hx.
Qed.

Lemma broadcast_row_vector (c : nat) (xs : list F) :
  length xs = c → broadcast_row (Data (VArray (NDArray [c] xs))) c = Ok xs.
Proof.
  intros <-. unfold broadcast_row. destruct xs as [|x xs]; [done|].
  cbn [shape data]. rewrite bool_decide_true by done. by rewrite firstn_all.
Qed.

End Grid.

(** *** The flows of one cell *)

Section Conservation.
Variables (R S : nat) (self : gmap string (attr Qc)) (promotion cross : list Qc).
Hypothesis Hself :
  configured self R S (replicate S 0%Qc) promotion (replicate R 0%Qc) cross.

Local Abbreviation balanced := (balanced R S).

Lemma isub_balanced d i j (v : Qc) :
  grid R S d → i < R → j < S →
  ∃ d', isub d i j v = Ok d' ∧ grid R S d' ∧
        np_sum (data d') = (np_sum (data d) - v)%Qc.
Proof.
  intros Hd Hi Hj. destruct (grid_lookup R S d i j) as [x Hx]; [done..|].
  eexists. split; [by eapply update2_grid|]. split.
  - split; [done|]. simpl. rewrite length_insert. apply Hd.
  - simpl. rewrite (np_sum_insert _ _ x) by done.
    change (x - v)%F with (x - v)%Qc. ring.
Qed.

Lemma iadd_balanced d i j (v : Qc) :
  grid R S d → i < R → j < S →
  ∃ d', iadd d i j v = Ok d' ∧ grid R S d' ∧
        np_sum (data d') = (np_sum (data d) + v)%Qc.
Proof.
  intros Hd Hi Hj. destruct (grid_lookup R S d i j) as [x Hx]; [done..|].
  eexists. split; [by eapply update2_grid|]. split.
  - split; [done|]. simpl. rewrite length_insert. apply Hd.
  - simpl. rewrite (np_sum_insert _ _ x) by done.
    change (x + v)%F with (x + v)%Qc. ring.
Qed.

(** A transfer from one cell to another leaves the sum as it is. *)
Lemma transfer_balanced d i j i' j' (v : Qc) :
  balanced d → i < R → j < S → i' < R → j' < S →
  ∃ d', (d1 ← isub d i j v; iadd d1 i' j' v) = Ok d' ∧ balanced d'.
Proof.
  intros [Hd Hsum] Hi Hj Hi' Hj'.
  destruct (isub_balanced d i j v) as (d1 & -> & Hd1 & Hsum1); [done..|].
  destruct (iadd_balanced d1 i' j' v) as (d2 & Hd2 & Hgrid2 & Hsum2); [done..|].
  exists d2. simpl. split; [done|]. split; [done|].
  rewrite Hsum2, Hsum1, Hsum. ring.
Qed.

Lemma cross_training_balanced rank specialty (c : Qc) d :
  balanced d → rank < R → specialty < S →
  ∃ d', cross_training self rank specialty c d = Ok d' ∧ balanced d'.
Proof.
  destruct Hself as (_ & _ & Hns & _ & _ & _ & _ & _ & _ & Hm & Hlen).
  intros Hd Hrank Hspec. unfold cross_training.
  rewrite (getattr_lookup _ _ _ Hns), !ok_bind. unfold as_int.
  apply for_in_inv; [done|].
  intros target d1 Htarget%elem_of_range Hd1.
  case_bool_decide; [|by exists d1].
  rewrite (getattr_lookup _ _ _ Hm), ok_bind.
  destruct (lookup_lt_is_Some_2 cross (specialty * S + target)) as [rate Hrate]; [nia|].
  rewrite (getitem2_matrix S S cross specialty target rate), ok_bind by (done || lia).
  apply transfer_balanced; (done || lia).
Qed.

Lemma cell_balanced pop rank specialty d :
  grid R S pop → balanced d → rank < R → specialty < S →
  ∃ d', cell self pop rank specialty d = Ok d' ∧ balanced d'.
Proof.
  destruct Hself as (_ & Hnr & _ & _ & _ & Hpro & Hprolen & Hatt & _ & _ & _).
  intros Hpop [Hd Hsum] Hrank Hspec. unfold cell.
  destruct (grid_lookup R S pop rank specialty) as [c Hc]; [done..|].
  rewrite (item2_grid R S pop rank specialty c), ok_bind by done.
  rewrite (getattr_lookup _ _ _ Hatt), ok_bind.
  rewrite (getitem1_vector R _ rank 0%Qc), ok_bind
    by (done || by apply lookup_replicate_2).
  destruct (isub_balanced d rank specialty (c * 0%Qc)%F) as (d1 & -> & Hd1 & Hsum1);
    [done..|].
  assert (balanced d1) as Hbal1.
  { split; [done|]. rewrite Hsum1, Hsum. change (c * 0%Qc)%F with (c * 0)%Qc. ring. }
  rewrite ok_bind, (getattr_lookup _ _ _ Hnr), !ok_bind. unfold as_int.
  rewrite ok_bind. case_bool_decide as Hlast.
  - rewrite (getattr_lookup _ _ _ Hpro), ok_bind.
    destruct (lookup_lt_is_Some_2 promotion rank) as [p Hp]; [lia|].
    rewrite (getitem1_vector R _ rank p), ok_bind by done.
    destruct (transfer_balanced d1 rank specialty (rank + 1) specialty (c * p)%F)
      as (d2 & -> & Hbal2); [done || lia..|].
    rewrite ok_bind. by apply cross_training_balanced.
  - rewrite ok_bind. by apply cross_training_balanced.
Qed.

(** Adding the recruitment rates, all zero, to the first row of zeros. *)
Lemma recruitment_balanced :
  ∃ d, iadd_row0 (np_zeros [R; S]) S
         (Data (VArray (NDArray [S] (replicate S 0%Qc)))) = Ok d ∧ balanced d.
Proof.
  destruct Hself as (HR & _).
  exists (NDArray [R; S] (replicate (R * S) 0%Qc)). split.
  - unfold iadd_row0. rewrite broadcast_row_vector, ok_bind by apply length_replicate.
    unfold np_zeros. simpl. rewrite Nat.mul_1_r.
    do 2 f_equal. change (@fzero Qc exact) with 0%Qc.
    rewrite take_replicate, drop_replicate, (Nat.min_l S (R * S)) by nia.
    rewrite zip_with_replicate.
    change (fadd 0%Qc 0%Qc) with (0 + 0)%Qc.
    replace (0 + 0)%Qc with 0%Qc by ring.
    rewrite <-replicate_add. f_equal. nia.
  - split; [split; [done|apply length_replicate]|apply np_sum_zeros].
Qed.

Lemma workforce_ode_balanced (t : Qc) (pop_flat : list Qc) :
  length pop_flat = R * S →
  ∃ d, workforce_ode self t pop_flat = Ok d ∧ length d = R * S ∧ np_sum d = 0%Qc.
Proof.
  pose proof Hself as (HR & Hnr & Hns & Hrec & _).
  intros Hlen. unfold workforce_ode.
  rewrite (getattr_lookup _ _ _ Hnr), (getattr_lookup _ _ _ Hns), !ok_bind.
  unfold as_int. rewrite !ok_bind.
  rewrite reshape_2d, ok_bind by done.
  change (zeros_like (NDArray [R; S] pop_flat)) with (np_zeros (F:=Qc) [R; S]).
  assert (row0 (np_zeros (F:=Qc) [R; S]) = Ok S) as ->
    by (unfold row0; simpl; by rewrite bool_decide_true).
  rewrite ok_bind, (getattr_lookup _ _ _ Hrec), ok_bind.
  destruct recruitment_balanced as (d0 & -> & Hbal0). rewrite !ok_bind.
  destruct (for_in_inv balanced (range (Z.of_nat R))
    (λ rank dpop,
       num_specialties ← Ok (Z.of_nat S);
       for_in (range num_specialties) (λ specialty dpop,
         cell self (NDArray [R; S] pop_flat) rank specialty dpop) dpop) d0)
    as (d & -> & [[_ Hdlen] Hsum]); [done| |].
  - intros rank d1 Hrank%elem_of_range Hd1. rewrite ok_bind.
    apply for_in_inv; [done|].
    intros specialty d2 Hspec%elem_of_range Hd2.
    apply cell_balanced; [by split|done|lia..].
  - exists (data d). by repeat split.
Qed.

End Conservation.

(** C3, in exact arithmetic: for a model of [R] ranks and [S]
    specialties whose recruitment rates and attrition rates are all zero,
    whatever its promotion rates and its cross-training matrix, the
    derivative function returns, for every population grid, an array of
    rates of change whose cells sum to zero. *)
Theorem workforce_ode_conserves_total (R S : nat) (self : gmap string (attr Qc))
    (promotion cross : list Qc) (t : Qc) (pop_flat : list Qc) :
  configured self R S (replicate S 0%Qc) promotion (replicate R 0%Qc) cross →
  length pop_flat = R * S →
  ∃ d, workforce_ode self t pop_flat = Ok d ∧ length d = R * S ∧ np_sum d = 0%Qc.
Proof. intros Hself. by eapply workforce_ode_balanced. Qed.

(** The default model with its recruitment and attrition rates set to
    zero is such a model, and the default grid fits it. *)
Lemma workforce_ode_conserves_total_default :
  configured (without_flows modelQ) 6 3 (replicate 3 0%Qc)
    promotion_rates_default (replicate 6 0%Qc) (concat cross_training_default) ∧
  length gridQ = 6 * 3 ∧
  ∃ d, workforce_ode (without_flows modelQ) 0%Qc gridQ = Ok d ∧
       length d = 6 * 3 ∧ np_sum d = 0%Qc.
Proof.
  assert (configured (without_flows modelQ) 6 3 (replicate 3 0%Qc)
            promotion_rates_default (replicate 6 0%Qc)
            (concat cross_training_default)) as Hself.
  { unfold configured. repeat split; lia || reflexivity. }
  split; [exact Hself|]. split; [reflexivity|].
  exact (workforce_ode_conserves_total 6 3 (without_flows modelQ)
           promotion_rates_default (concat cross_training_default) 0%Qc gridQ
           Hself eq_refl).
Defined.

(** In binary64 the same model and grid give rates of change that do not
    sum to zero: neither the sum NumPy-style, accumulated in doubles, nor
    the exact sum of the eighteen doubles returned. *)
Lemma binary64_rates_do_not_sum_to_zero :
  configured (without_flows model64) 6 3 (replicate 3 0%float)
    promotion_rates_default (replicate 6 0%float) (concat cross_training_default) ∧
  length grid64 = 6 * 3 ∧
  ∃ d q, workforce_ode (without_flows model64) 0%float grid64 = Ok d ∧
         feqb (np_sum d) 0%float = false ∧
         rational_sum d = Some q ∧ Qeq_bool q 0 = false.
Proof.
  split; [unfold configured; repeat split; lia || reflexivity|].
  split; [reflexivity|].
  eexists _, _. split; [vm_compute; reflexivity|].
  split; [reflexivity|]. split; [vm_compute; reflexivity|reflexivity].
Qed.

(** The time points of the exact default model for a horizon of one year
    and a step of a tenth. *)
Lemma time_points_exact_default :
  (0 < 1)%Qc ∧ (0 < dec 1 10)%Qc ∧
  ∃ n : nat,
    np_arange0 1%Qc (dec 1 10) = Ok ((λ k : nat, of_Z (Z.of_nat k) * dec 1 10)%F <$> seq 0 n) ∧
    (∀ k : nat, k < n ↔ (of_Z (Z.of_nat k) * dec 1 10 < 1)%Qc) ∧
    (∀ time population m,
       simulate refusing_solver modelQ 1%Qc (dec 1 10) = Ok (time, population, m) →
       time = (λ k : nat, of_Z (Z.of_nat k) * dec 1 10)%F <$> seq 0 n).
Proof.
  assert (0 < 1)%Qc as H1 by reflexivity.
  assert (0 < dec 1 10)%Qc as Hdt by reflexivity.
  split; [exact H1|]. split; [exact Hdt|].
  exact (time_points_exact refusing_solver modelQ 1%Qc (dec 1 10) H1 Hdt).
Defined.

(** The default cross-training matrix and the one with zeros on its
    diagonal give the same derivative function. *)
Lemma workforce_ode_ignores_diagonal_default :
  (∀ s s', s ≠ s' →
     getitem2 (Data (VArray (mat cross_training_default))) s s' =
     getitem2 (Data (VArray (mat cross_training_no_diagonal))) s s') ∧
  workforce_ode
    (setattr model64 "cross_training_matrix" (Data (VArray (mat cross_training_default))))
    0%float grid64 =
  workforce_ode
    (setattr model64 "cross_training_matrix" (Data (VArray (mat cross_training_no_diagonal))))
    0%float grid64.
Proof.
  assert (∀ s s', s ≠ s' →
     getitem2 (Data (VArray (mat cross_training_default))) s s' =
     getitem2 (Data (VArray (mat cross_training_no_diagonal))) s s') as Hoff.
  { intros s s' Hne. unfold getitem2, mat. cbn [shape length head default].
    destruct (decide (s < 3 ∧ s' < 3)) as [[Hs Hs']|Hout].
    - destruct s as [|[|[|s]]]; [| | |lia];
        (destruct s' as [|[|[|s']]]; [| | |lia]); done.
    - by rewrite !bool_decide_false. }
  split; [exact Hoff|].
  exact (workforce_ode_ignores_diagonal model64 _ _ 0%float grid64 Hoff).
Defined.



(** ** The scenario runner: the two ways out *)

Section Restoration.
Context {F : Type} `{!Scalar F}.
Implicit Types (self : gmap string (attr F)) (st : scenario_state F).
Implicit Types (kwargs : list (string * value F)).
Variable solve_ivp :
  (F → list F → result (list F)) → F * F → list F → list F → result (OdeResult F).

Lemma dict_set_NoDup {A} (d : list (string * A)) key v :
  NoDup d.*1 → NoDup (dict_set d key v).*1.
Proof.
  induction d as [|[k w] d IH]; simpl; intros Hnd.
  - apply NoDup_singleton.
  - apply NoDup_cons in Hnd as [Hk Hnd]. case_bool_decide; simpl.
    + by apply NoDup_cons.
    + apply NoDup_cons. split; [|by apply IH].
      intros [->|?]%dict_set_keys; done.
Qed.

Lemma overrides_original_NoDup kwargs st :
  NoDup (st_original st).*1 → NoDup (st_original (foldl override st kwargs)).*1.
Proof.
  revert st. induction kwargs as [|[k v] kwargs IH]; intros st Hnd; [done|].
  simpl. apply IH. unfold override.
  destruct (hasattr _ _); [|done]. destruct (getattr _ _); [|done].
  simpl. by apply dict_set_NoDup.
Qed.

Lemma restore_lookup self (original_params : list (string * attr F)) key v :
  NoDup original_params.*1 → (key, v) ∈ original_params →
  restore self original_params !! key = Some v.
Proof.
  revert self. induction original_params as [|[k w] d IH]; intros self Hnd Hin;
    [by apply elem_of_nil in Hin|].
  simpl in Hnd. apply NoDup_cons in Hnd as [Hk Hnd].
  change (restore self ((k, w) :: d)) with (restore (setattr self k w) d).
  apply elem_of_cons in Hin as [[= -> ->]|Hin].
  - rewrite restore_ne by done. apply lookup_insert_eq.
  - by apply IH.
Qed.

(** When the simulation returns, every name that is not [special] is
    looked up on the model with the same result after the call as before
    it (the keys of [kwargs] being distinct, and none of them [special]):
    each overridden attribute is back. *)
Theorem run_scenario_restores_on_success self (scenario_name : string) (years : F)
    kwargs results :
  NoDup kwargs.*1 →
  Forall (λ key, special key = false) kwargs.*1 →
  (run_scenario solve_ivp self scenario_name years kwargs).1.1 = Ok results →
  ∀ key, special key = false →
    getattr (run_scenario solve_ivp self scenario_name years kwargs).1.2 key
    = getattr self key.
Proof.
  intros Hnd _ Hok key _. unfold run_scenario in *.
  set (st := foldl override (ScenarioState self [] []) kwargs) in *.
  destruct (_ ≫= _) as [r|e]; simpl in *; [|done].
  pose proof (overrides_original_NoDup kwargs (ScenarioState self [] [])
                (NoDup_nil_2 : NoDup ([] : list (string * attr F)).*1)) as Hnd'.
  fold st in Hnd'.
  destruct (decide (key ∈ kwargs.*1)) as [Hkey|Hkey].
  - apply list_elem_of_fmap in Hkey as ([k v] & -> & Hin). simpl.
    pose proof (overrides_entry kwargs (ScenarioState self [] []) k v Hnd Hin)
      as Hentry.
    simpl in Hentry. fold st in Hentry.
    destruct (getattr self k) as [old|e] eqn:Hget.
    + destruct Hentry as [_ Hold].
      unfold getattr at 1. by rewrite (restore_lookup _ _ k old).
    + destruct Hentry as [Hself _].
      assert (hasattr self k = false) as Hhas by (unfold hasattr; by rewrite Hget).
      unfold getattr at 1. rewrite restore_ne.
      * rewrite Hself. exact Hget.
      * intros Hk. apply overrides_original_keys in Hk as [Hk|[_ Hk]]; [| |done].
        -- by apply elem_of_nil in Hk.
        -- simpl in Hk. congruence.
  - unfold getattr. rewrite restore_ne.
    + unfold st. by rewrite overrides_self_ne.
    + intros Hk. apply overrides_original_keys in Hk as [Hk|[Hk _]]; [| |done].
      * by apply elem_of_nil in Hk.
      * done.
Qed.

(** When the simulation raises, [run_scenario] raises too and the second
    loop does not run: every attribute that was overridden still holds the
    override (the keys of [kwargs] being distinct, and none of them
    [special], so that the first loop itself cannot raise). *)
Theorem run_scenario_keeps_overrides_on_error self (scenario_name : string) (years : F)
    kwargs e :
  NoDup kwargs.*1 →
  Forall (λ key, special key = false) kwargs.*1 →
  (run_scenario solve_ivp self scenario_name years kwargs).1.1 = Raise e →
  ∀ key v, (key, v) ∈ kwargs → hasattr self key = true →
    (run_scenario solve_ivp self scenario_name years kwargs).1.2 !! key = Some (Data v).
Proof.
  intros Hnd _ Hraise key v Hin Hhas. unfold run_scenario in *.
  set (st := foldl override (ScenarioState self [] []) kwargs) in *.
  destruct (_ ≫= _) as [r|e']; simpl in *; [done|].
  pose proof (overrides_entry kwargs (ScenarioState self [] []) key v Hnd Hin)
    as Hentry.
  simpl in Hentry. fold st in Hentry. unfold hasattr in Hhas.
  destruct (getattr self key); [|done]. by destruct Hentry.
Qed.

End Restoration.

(** A scenario on the default model with a solver that returns: the
    recruitment rates are back afterwards. *)
Lemma run_scenario_restores_on_success_default :
  NoDup scenario_kwargs.*1 ∧
  Forall (λ key, special key = false) scenario_kwargs.*1 ∧
  ∃ results,
    (run_scenario failed_solver model64 "growth" 1%float scenario_kwargs).1.1 = Ok results ∧
    ∀ key, special key = false →
      getattr (run_scenario failed_solver model64 "growth" 1%float scenario_kwargs).1.2 key
      = getattr model64 key.
Proof.
  assert (NoDup scenario_kwargs.*1) as Hnd.
  { apply NoDup_cons. split; [|apply NoDup_singleton].
    intros Hin%list_elem_of_singleton. discriminate. }
  assert (Forall (λ key, special key = false) scenario_kwargs.*1) as Hkeys
    by (by repeat constructor).
  split; [exact Hnd|]. split; [exact Hkeys|].
  assert (∃ results,
    (run_scenario failed_solver model64 "growth" 1%float scenario_kwargs).1.1 = Ok results)
    as [results Hok] by (eexists; vm_compute; reflexivity).
  exists results. split; [exact Hok|].
  exact (run_scenario_restores_on_success failed_solver model64 "growth" 1%float
           scenario_kwargs results Hnd Hkeys Hok).
Defined.

(** A scenario whose simulation raises: the override stays. *)
Lemma run_scenario_keeps_overrides_on_error_default :
  NoDup [("initial_population", VInt 5 : value float)].*1 ∧
  Forall (λ key, special key = false) [("initial_population", VInt 5 : value float)].*1 ∧
  (run_scenario failed_solver model64 "broken" 10%float
     [("initial_population", VInt 5)]).1.1 = Raise AttributeError ∧
  ∀ key v, (key, v) ∈ [("initial_population", VInt 5 : value float)] →
    hasattr model64 key = true →
    (run_scenario failed_solver model64 "broken" 10%float
       [("initial_population", VInt 5)]).1.2 !! key = Some (Data v).
Proof.
  assert (NoDup [("initial_population", VInt 5 : value float)].*1) as Hnd
    by apply NoDup_singleton.
  assert ((run_scenario failed_solver model64 "broken" 10%float
     [("initial_population", VInt 5)]).1.1 = Raise AttributeError) as Hraise
    by (vm_compute; reflexivity).
  assert (Forall (λ key, special key = false)
            [("initial_population", VInt 5 : value float)].*1) as Hkeys
    by (by repeat constructor).
  split; [exact Hnd|]. split; [exact Hkeys|]. split; [exact Hraise|].
  exact (run_scenario_keeps_overrides_on_error failed_solver model64 "broken" 10%float
           _ AttributeError Hnd Hkeys Hraise).
Defined.

(** * Further properties of the code *)

(** ** The derivative function on a well-shaped model *)

Section Shapes.
Context {F : Type} `{!Scalar F}.
Implicit Types (a d : ndarray F) (self : gmap string (attr F)).

Lemma update2_total (f : F → F) r c d i j :
  grid r c d → i < r → j < c → ∃ d', update2 f d i j = Ok d' ∧ grid r c d'.
Proof.
  intros Hd Hi Hj. destruct (grid_lookup r c d i j) as [x Hx]; [done..|].
  eexists. split; [by eapply update2_grid|].
  split; [done|]. simpl. rewrite length_insert. apply Hd.
Qed.

Lemma reshape_shape_mismatch (len : nat) (dims : list Z) :
  Forall (λ n, 0 ≤ n)%Z dims → Z.of_nat len ≠ foldr Z.mul 1%Z dims →
  reshape_shape len dims = Raise ValueError.
Proof.
  intros Hdims Hlen. unfold reshape_shape.
  rewrite bool_decide_true by (eapply Forall_impl; [done|]; simpl; lia).
  assert (filter (λ n, n ≠ (-1)%Z) dims = dims) as ->.
  { clear Hlen. induction Hdims as [|n dims Hn _ IH]; [done|].
    rewrite filter_cons_True by lia. by rewrite IH. }
  rewrite Nat.sub_diag.
  assert (0 ≤ foldr Z.mul 1 dims)%Z.
  { clear Hlen. induction Hdims; simpl; lia. }
  rewrite bool_decide_false; [done|lia].
Qed.

Lemma reshape_flatten r c a :
  grid r c a → reshape (NDArray [length (flatten a)] (flatten a)) [Z.of_nat r; Z.of_nat c] = Ok a.
Proof.
  destruct a as [sh xs]. intros [Hsh Hlen]. simpl in *. subst sh.
  by apply reshape_2d.
Qed.

Section Configured.
Variables (R S : nat) (self : gmap string (attr F)).
Variables (recruitment promotion attrition cross : list F).
Hypothesis Hself : configured self R S recruitment promotion attrition cross.

Lemma cross_training_total rank specialty (c : F) d :
  grid R S d → rank < R → specialty < S →
  ∃ d', cross_training self rank specialty c d = Ok d' ∧ grid R S d'.
Proof.
  destruct Hself as (_ & _ & Hns & _ & _ & _ & _ & _ & _ & Hm & Hlen).
  intros Hd Hrank Hspec. unfold cross_training.
  rewrite (getattr_lookup _ _ _ Hns), !ok_bind. unfold as_int.
  apply for_in_inv; [done|].
  intros target d1 Htarget%elem_of_range Hd1.
  case_bool_decide; [|by exists d1].
  rewrite (getattr_lookup _ _ _ Hm), ok_bind.
  destruct (lookup_lt_is_Some_2 cross (specialty * S + target)) as [rate Hrate]; [nia|].
  rewrite (getitem2_matrix S S cross specialty target rate), ok_bind by (done || lia).
  unfold isub, iadd.
  destruct (update2_total (λ y, y - c * rate * dec 5 100)%F R S d1 rank specialty)
    as (d2 & -> & Hd2); [done..|].
  rewrite ok_bind. apply update2_total; (done || lia).
Qed.

Lemma cell_total pop rank specialty d :
  grid R S pop → grid R S d → rank < R → specialty < S →
  ∃ d', cell self pop rank specialty d = Ok d' ∧ grid R S d'.
Proof.
  destruct Hself as (_ & Hnr & _ & _ & _ & Hpro & Hprolen & Hatt & Hattlen & _ & _).
  intros Hpop Hd Hrank Hspec. unfold cell.
  destruct (grid_lookup R S pop rank specialty) as [c Hc]; [done..|].
  rewrite (item2_grid R S pop rank specialty c), ok_bind by done.
  rewrite (getattr_lookup _ _ _ Hatt), ok_bind.
  destruct (lookup_lt_is_Some_2 attrition rank) as [x Hx]; [lia|].
  rewrite (getitem1_vector R _ rank x), ok_bind by done.
  unfold isub, iadd.
  destruct (update2_total (λ y, y - c * x)%F R S d rank specialty)
    as (d1 & -> & Hd1); [done..|].
  rewrite ok_bind, (getattr_lookup _ _ _ Hnr), !ok_bind. unfold as_int.
  rewrite ok_bind. case_bool_decide as Hlast.
  - rewrite (getattr_lookup _ _ _ Hpro), ok_bind.
    destruct (lookup_lt_is_Some_2 promotion rank) as [p Hp]; [lia|].
    rewrite (getitem1_vector R _ rank p), ok_bind by done.
    destruct (update2_total (λ y, y - c * p)%F R S d1 rank specialty)
      as (d2 & -> & Hd2); [done..|].
    rewrite ok_bind.
    destruct (update2_total (λ y, y + c * p)%F R S d2 (rank + 1) specialty)
      as (d3 & -> & Hd3); [done || lia..|].
    rewrite ok_bind. by apply cross_training_total.
  - rewrite ok_bind. by apply cross_training_total.
Qed.

Lemma recruitment_total :
  ∃ d, iadd_row0 (np_zeros [R; S]) S (Data (VArray (NDArray [S] recruitment))) = Ok d ∧
       grid R S d.
Proof.
  destruct Hself as (HR & _ & _ & _ & Hreclen & _).
  unfold iadd_row0. rewrite broadcast_row_vector, ok_bind by done.
  eexists. split; [done|]. split; [done|].
  unfold np_zeros. simpl.
  rewrite length_app, length_zip_with, length_take, length_drop, length_replicate.
  nia.
Qed.

Lemma workforce_ode_total (t : F) (pop_flat : list F) :
  length pop_flat = R * S →
  ∃ rates : list F, workforce_ode self t pop_flat = Ok rates ∧ length rates = R * S.
Proof.
  pose proof Hself as (HR & Hnr & Hns & Hrec & _).
  intros Hlen. unfold workforce_ode.
  rewrite (getattr_lookup _ _ _ Hnr), (getattr_lookup _ _ _ Hns), !ok_bind.
  unfold as_int. rewrite !ok_bind.
  rewrite reshape_2d, ok_bind by done.
  change (zeros_like (NDArray [R; S] pop_flat)) with (np_zeros (F:=F) [R; S]).
  assert (row0 (np_zeros (F:=F) [R; S]) = Ok S) as ->
    by (unfold row0; simpl; by rewrite bool_decide_true).
  rewrite ok_bind, (getattr_lookup _ _ _ Hrec), ok_bind.
  destruct recruitment_total as (d0 & -> & Hd0). rewrite !ok_bind.
  destruct (for_in_inv (grid R S) (range (Z.of_nat R))
    (λ rank dpop,
       num_specialties ← Ok (Z.of_nat S);
       for_in (range num_specialties) (λ specialty dpop,
         cell self (NDArray [R; S] pop_flat) rank specialty dpop) dpop) d0)
    as (d & -> & [_ Hdlen]); [done| |].
  - intros rank d1 Hrank%elem_of_range Hd1. rewrite ok_bind.
    apply for_in_inv; [done|].
    intros specialty d2 Hspec%elem_of_range Hd2.
    apply cell_total; [by split|done|lia..].
  - by exists (data d).
Qed.

End Configured.

(** On a model of [R] ranks and [S] specialties whose rate arrays have
    the matching lengths, the derivative function raises nothing: for every
    state of [R * S] cells it returns [R * S] rates of change, in any
    arithmetic. *)
Theorem workforce_ode_returns (R S : nat) self
    (recruitment promotion attrition cross : list F) (t : F) (pop_flat : list F) :
  configured self R S recruitment promotion attrition cross →
  length pop_flat = R * S →
  ∃ rates : list F, workforce_ode self t pop_flat = Ok rates ∧ length rates = R * S.
Proof. intros Hself. by eapply workforce_ode_total. Qed.

(** A state whose size is not [num_ranks * num_specialties] (both
    non-negative integers) makes the derivative function raise the
    [ValueError] of [reshape], whatever the rates. *)
Theorem workforce_ode_rejects_size self (r s : Z) (t : F) (pop_flat : list F) :
  self !! "num_ranks" = Some (Data (VInt r)) →
  self !! "num_specialties" = Some (Data (VInt s)) →
  (0 ≤ r)%Z → (0 ≤ s)%Z → Z.of_nat (length pop_flat) ≠ (r * s)%Z →
  workforce_ode self t pop_flat = Raise ValueError.
Proof.
  intros Hnr Hns Hr Hs Hlen. unfold workforce_ode.
  rewrite (getattr_lookup _ _ _ Hnr), (getattr_lookup _ _ _ Hns), !ok_bind.
  unfold as_int. rewrite !ok_bind. unfold reshape. simpl.
  rewrite reshape_shape_mismatch; [done| |simpl; lia].
  by repeat constructor.
Qed.

End Shapes.

(** ** The derivative function on a model that is not well shaped *)

Section Misshaped.
Context {F : Type} `{!Scalar F}.
Implicit Types (self : gmap string (attr F)).

(** A model of no rank: the state is empty and is reshaped without
    error, and the recruitment step [dpop[0, :] += ...] raises
    [IndexError], for there is no first row. *)
Theorem workforce_ode_needs_a_rank self (s : Z) (t : F) :
  self !! "num_ranks" = Some (Data (VInt 0)) →
  self !! "num_specialties" = Some (Data (VInt s)) →
  (0 ≤ s)%Z →
  workforce_ode self t [] = Raise IndexError.
Proof.
  intros Hnr Hns Hs. unfold workforce_ode.
  rewrite (getattr_lookup _ _ _ Hnr), (getattr_lookup _ _ _ Hns), !ok_bind.
  unfold as_int. rewrite !ok_bind.
  replace s with (Z.of_nat (Z.to_nat s)) by lia.
  change 0%Z with (Z.of_nat 0).
  rewrite (reshape_2d _ [] 0 (Z.to_nat s)), ok_bind by done.
  reflexivity.
Qed.

(** A vector of recruitment rates whose length is neither the number of
    specialties nor 1 cannot be added to the first row: the derivative
    function raises the [ValueError] of the broadcast, whatever the state
    and the other rates. *)
Theorem workforce_ode_rejects_recruitment_length self (R S n : nat)
    (recruitment : list F) (t : F) (pop_flat : list F) :
  self !! "num_ranks" = Some (Data (VInt (Z.of_nat R))) →
  self !! "num_specialties" = Some (Data (VInt (Z.of_nat S))) →
  self !! "recruitment_rates" = Some (Data (VArray (NDArray [n] recruitment))) →
  0 < R → length pop_flat = R * S → n ≠ S → n ≠ 1 →
  workforce_ode self t pop_flat = Raise ValueError.
Proof.
  intros Hnr Hns Hrec HR Hlen HnS Hn1. unfold workforce_ode.
  rewrite (getattr_lookup _ _ _ Hnr), (getattr_lookup _ _ _ Hns), !ok_bind.
  unfold as_int. rewrite !ok_bind.
  rewrite reshape_2d, ok_bind by done.
  change (zeros_like (NDArray [R; S] pop_flat)) with (np_zeros (F:=F) [R; S]).
  assert (row0 (np_zeros (F:=F) [R; S]) = Ok S) as ->
    by (unfold row0; simpl; by rewrite bool_decide_true).
  rewrite ok_bind, (getattr_lookup _ _ _ Hrec), ok_bind.
  unfold iadd_row0, broadcast_row. cbn [shape data].
  destruct recruitment as [|x recruitment]; rewrite !bool_decide_false by done; done.
Qed.

End Misshaped.

(** ** Cells without flows, in exact arithmetic *)

Lemma for_in_fixed {A B} (xs : list A) (f : A → B → result B) (b : B) :
  (∀ x, x ∈ xs → f x b = Ok b) → for_in xs f b = Ok b.
Proof.
  intros Hf. destruct (for_in_inv (λ b', b' = b) xs f b) as (b' & -> & ->); [done| |done].
  intros x ? Hx ->. exists b. split; [by apply Hf|done].
Qed.

Lemma update2_same {F : Type} `{!Scalar F} (f : F → F) r c (d : ndarray F) i j :
  grid r c d → i < r → j < c →
  (∀ x, data d !! (i * c + j) = Some x → f x = x) →
  update2 f d i j = Ok d.
Proof.
  intros Hd Hi Hj Hf. destruct (grid_lookup r c d i j) as [x Hx]; [done..|].
  rewrite (update2_grid f r c d i j x) by done. rewrite (Hf x Hx).
  rewrite list_insert_id by done. destruct d as [sh xs], Hd as [Hsh _].
  simpl in *. by subst.
Qed.

Section NoFlow.
Variables (R S : nat) (self : gmap string (attr Qc)).
Variables (recruitment promotion attrition cross pop_flat : list Qc).
Hypothesis Hself : configured self R S recruitment promotion attrition cross.
Hypothesis Hpop : length pop_flat = R * S.
Hypothesis Hflow : ∀ c x, c ∈ pop_flat →
  x ∈ attrition ∨ x ∈ promotion ∨ x ∈ cross → (c * x)%Qc = 0%Qc.

Lemma transfer_none (d : ndarray Qc) i j i' j' (v : Qc) :
  grid R S d → i < R → j < S → i' < R → j' < S → v = 0%Qc →
  (d1 ← isub d i j v; iadd d1 i' j' v) = Ok d.
Proof.
  intros Hd Hi Hj Hi' Hj' ->. unfold isub, iadd.
  rewrite (update2_same _ R S d i j), ok_bind; [|done..|].
  - apply (update2_same _ R S); [done..|]. intros x _.
    change (x + 0%Qc)%F with (x + 0)%Qc. ring.
  - intros x _. change (x - 0%Qc)%F with (x - 0)%Qc. ring.
Qed.

Lemma isub_none (d : ndarray Qc) i j (v : Qc) :
  grid R S d → i < R → j < S → v = 0%Qc → isub d i j v = Ok d.
Proof.
  intros Hd Hi Hj ->. unfold isub. apply (update2_same _ R S); [done..|].
  intros x _. change (x - 0%Qc)%F with (x - 0)%Qc. ring.
Qed.

Lemma cross_training_no_flow rank specialty (c : Qc) (d : ndarray Qc) :
  grid R S d → rank < R → specialty < S → c ∈ pop_flat →
  cross_training self rank specialty c d = Ok d.
Proof.
  destruct Hself as (_ & _ & Hns & _ & _ & _ & _ & _ & _ & Hm & Hlen).
  intros Hd Hrank Hspec Hc. unfold cross_training.
  rewrite (getattr_lookup _ _ _ Hns), !ok_bind. unfold as_int. rewrite ok_bind.
  apply for_in_fixed. intros target Htarget%elem_of_range.
  case_bool_decide; [|done].
  rewrite (getattr_lookup _ _ _ Hm), ok_bind.
  destruct (lookup_lt_is_Some_2 cross (specialty * S + target)) as [rate Hrate]; [nia|].
  rewrite (getitem2_matrix S S cross specialty target rate), ok_bind by (done || lia).
  apply transfer_none; [done || lia..|].
  change (c * rate * dec 5 100)%F with (c * rate * dec 5 100)%Qc.
  rewrite (Hflow c rate); [ring|done|].
  right. right. by eapply list_elem_of_lookup_2.
Qed.

Lemma cell_no_flow rank specialty (d : ndarray Qc) :
  grid R S d → rank < R → specialty < S →
  cell self (NDArray [R; S] pop_flat) rank specialty d = Ok d.
Proof.
  destruct Hself as (_ & Hnr & _ & _ & _ & Hpro & Hprolen & Hatt & Hattlen & _ & _).
  intros Hd Hrank Hspec. unfold cell.
  assert (grid R S (NDArray [R; S] pop_flat)) as Hgrid by by split.
  destruct (grid_lookup R S _ rank specialty Hgrid) as [c Hc]; [done..|].
  assert (c ∈ pop_flat) as Hin by by eapply list_elem_of_lookup_2.
  rewrite (item2_grid R S _ rank specialty c), ok_bind by done.
  rewrite (getattr_lookup _ _ _ Hatt), ok_bind.
  destruct (lookup_lt_is_Some_2 attrition rank) as [x Hx]; [lia|].
  rewrite (getitem1_vector R _ rank x), ok_bind by done.
  rewrite isub_none, ok_bind; [|done..|].
  2:{ change (c * x)%F with (c * x)%Qc.
      apply Hflow; [done|]. left. by eapply list_elem_of_lookup_2. }
  rewrite (getattr_lookup _ _ _ Hnr), !ok_bind. unfold as_int.
  rewrite ok_bind. case_bool_decide as Hlast.
  - rewrite (getattr_lookup _ _ _ Hpro), ok_bind.
    destruct (lookup_lt_is_Some_2 promotion rank) as [p Hp]; [lia|].
    rewrite (getitem1_vector R _ rank p), ok_bind by done.
    rewrite transfer_none, ok_bind; [by apply cross_training_no_flow|done || lia..|].
    change (c * p)%F with (c * p)%Qc. apply Hflow; [done|].
    right. left. by eapply list_elem_of_lookup_2.
  - rewrite ok_bind. by apply cross_training_no_flow.
Qed.

Lemma workforce_ode_no_flow (t : Qc) :
  workforce_ode self t pop_flat = Ok (recruitment ++ replicate ((R - 1) * S) 0%Qc).
Proof.
  pose proof Hself as (HR & Hnr & Hns & Hrec & Hreclen & _).
  unfold workforce_ode.
  rewrite (getattr_lookup _ _ _ Hnr), (getattr_lookup _ _ _ Hns), !ok_bind.
  unfold as_int. rewrite !ok_bind.
  rewrite reshape_2d, ok_bind by done.
  change (zeros_like (NDArray [R; S] pop_flat)) with (np_zeros (F:=Qc) [R; S]).
  assert (row0 (np_zeros (F:=Qc) [R; S]) = Ok S) as ->
    by (unfold row0; simpl; by rewrite bool_decide_true).
  rewrite ok_bind, (getattr_lookup _ _ _ Hrec), ok_bind.
  unfold iadd_row0. rewrite broadcast_row_vector, !ok_bind by done.
  match goal with |- context [for_in (range (Z.of_nat R)) _ ?d] => set (d0 := d) end.
  assert (grid R S d0) as Hd0.
  { split; [done|]. unfold d0, np_zeros. simpl.
    rewrite length_app, length_zip_with, length_take, length_drop, length_replicate.
    nia. }
  rewrite for_in_fixed.
  - rewrite ok_bind. f_equal. unfold d0, np_zeros, flatten. simpl.
    rewrite Nat.mul_1_r, take_replicate, drop_replicate, (Nat.min_l S (R * S)) by nia.
    f_equal.
    + rewrite <-Hreclen, zip_with_replicate_l by done.
      rewrite <-(list_fmap_id recruitment) at 2. apply list_fmap_ext.
      intros _ x _. change (fadd fzero x) with (0 + x)%Qc. simpl. ring.
    + f_equal. nia.
  - intros rank Hrank%elem_of_range. rewrite ok_bind.
    apply for_in_fixed. intros specialty Hspec%elem_of_range.
    apply cell_no_flow; (done || lia).
Qed.

End NoFlow.

(** An empty force changes by recruitment alone: on a well-shaped model,
    whatever its rates, the derivative at the all-zero state is the
    recruitment rates in the cells of the first rank and zero in every
    other cell (exact arithmetic). *)
Theorem workforce_ode_of_empty_force (R S : nat) (self : gmap string (attr Qc))
    (recruitment promotion attrition cross : list Qc) (t : Qc) :
  configured self R S recruitment promotion attrition cross →
  workforce_ode self t (replicate (R * S) 0%Qc)
  = Ok (recruitment ++ replicate ((R - 1) * S) 0%Qc).
Proof.
  intros Hself. eapply workforce_ode_no_flow; [done|apply length_replicate|].
  intros c x ->%elem_of_replicate_inv _. ring.
Qed.

(** With every promotion rate, attrition rate and cross-training entry
    zero, the derivative is the same at every state: the recruitment rates
    in the first rank, zero elsewhere (exact arithmetic). *)
Theorem workforce_ode_recruitment_only (R S : nat) (self : gmap string (attr Qc))
    (recruitment pop_flat : list Qc) (t : Qc) :
  configured self R S recruitment (replicate R 0%Qc) (replicate R 0%Qc)
    (replicate (S * S) 0%Qc) →
  length pop_flat = R * S →
  workforce_ode self t pop_flat = Ok (recruitment ++ replicate ((R - 1) * S) 0%Qc).
Proof.
  intros Hself Hlen. eapply workforce_ode_no_flow; [done..|].
  intros c x _ [Hx|[Hx|Hx]]; apply elem_of_replicate_inv in Hx as ->; ring.
Qed.

(** ** The metrics reducer computes the metrics of each snapshot *)

Section Reducer.
Context {F : Type} `{!Scalar F}.
Implicit Types (h arrs : list (ndarray F)) (a : ndarray F).

Lemma bindM_ok {A B} (m : M F A) (f : A → M F B) h x h' :
  m h = (Ok x, h') → (m ≫= f) h = f x h'.
Proof. intros Hm. unfold mbind, M_bind. by rewrite Hm. Qed.

Lemma bindM_raise {A B} (m : M F A) (f : A → M F B) h e h' :
  m h = (Raise e, h') → (m ≫= f) h = (Raise e, h').
Proof. intros Hm. unfold mbind, M_bind. by rewrite Hm. Qed.

Lemma bindM_raise1 {A B} (m : M F A) (f : A → M F B) h e :
  (m h).1 = Raise e → ((m ≫= f) h).1 = Raise e.
Proof.
  unfold mbind, M_bind. destruct (m h) as [[x|e'] h']; simpl; [done|congruence].
Qed.

Lemma load_app_l h arrs l a :
  h !! l = Some a → load l (h ++ arrs) = (Ok a, h ++ arrs).
Proof. intros Ha. unfold load. by rewrite (lookup_app_l_Some _ _ _ _ Ha). Qed.

Lemma store_item_app h arrs i t (x : F) n (d : list F) :
  arrs !! i = Some (NDArray [n] d) → length d = n → t < n →
  store_item (length h + i) t x (h ++ arrs)
  = (Ok (), h ++ <[i := NDArray [n] (<[t := x]> d)]> arrs).
Proof.
  intros Hi Hd Ht. unfold store_item.
  rewrite lookup_app_r by lia.
  replace (length h + i - length h) with i by lia. rewrite Hi. simpl.
  rewrite bool_decide_true by (split; [by rewrite Hd|lia]).
  by rewrite insert_app_r.
Qed.

Lemma load_item_app h arrs i t (x : F) n (d : list F) :
  arrs !! i = Some (NDArray [n] d) → d !! t = Some x →
  load_item (length h + i) t (h ++ arrs) = (Ok x, h ++ arrs).
Proof.
  intros Hi Hx. unfold load_item.
  erewrite bindM_ok.
  2:{ unfold load. rewrite lookup_app_r by lia.
      replace (length h + i - length h) with i by lia. by rewrite Hi. }
  unfold lift. simpl. by rewrite Hx.
Qed.

Lemma subarray_app h arrs l t a n sh :
  h !! l = Some a → shape a = n :: sh → t < n →
  subarray l t (h ++ arrs) = (Ok (View l (t * size_of sh) sh), h ++ arrs).
Proof.
  intros Ha Hsh Ht. unfold subarray.
  erewrite bindM_ok by by apply load_app_l.
  unfold lift. rewrite Hsh. by rewrite bool_decide_true.
Qed.

Lemma elements_app h arrs l a n sh t :
  h !! l = Some a → shape a = n :: sh →
  elements (View l (t * size_of sh) sh) (h ++ arrs) = (Ok (snapshot a t), h ++ arrs).
Proof.
  intros Ha Hsh. unfold elements. simpl.
  erewrite bindM_ok by by apply load_app_l.
  unfold snapshot. by rewrite Hsh.
Qed.

Section Step.
Variables (h : list (ndarray F)) (population : nat) (pa : ndarray F).
Variables (n' r c : nat) (rest : list nat).
Hypothesis Hpa : h !! population = Some pa.
Hypothesis Hshape : shape pa = n' :: r :: c :: rest.

Lemma sum_view_app arrs t :
  sum_view (View population (t * size_of (r :: c :: rest)) (r :: c :: rest)) (h ++ arrs)
  = (Ok (np_sum (snapshot pa t)), h ++ arrs).
Proof.
  unfold sum_view. by erewrite bindM_ok by by eapply elements_app.
Qed.

Lemma sum_column_app arrs t j :
  j < c →
  sum_column (View population (t * size_of (r :: c :: rest)) (r :: c :: rest)) j (h ++ arrs)
  = (Ok (np_sum (column_cells r c (size_of rest) (snapshot pa t) j)), h ++ arrs).
Proof.
  intros Hj. unfold sum_column.
  erewrite bindM_ok by by eapply elements_app.
  unfold lift, column. cbn [vshape]. rewrite bool_decide_true by done.
  by erewrite bindM_ok by done.
Qed.

Lemma sum_column_app_raise arrs t j :
  c ≤ j →
  sum_column (View population (t * size_of (r :: c :: rest)) (r :: c :: rest)) j (h ++ arrs)
  = (Raise IndexError, h ++ arrs).
Proof.
  intros Hj. unfold sum_column.
  erewrite bindM_ok by by eapply elements_app.
  unfold lift, column. cbn [vshape]. rewrite bool_decide_false by lia.
  by erewrite bindM_raise by done.
Qed.

Lemma sum_rows_until_app arrs t :
  sum_rows_until (View population (t * size_of (r :: c :: rest)) (r :: c :: rest)) 3 (h ++ arrs)
  = (Ok (junior c (size_of rest) (snapshot pa t)), h ++ arrs).
Proof.
  unfold sum_rows_until.
  erewrite bindM_ok by by eapply elements_app.
  unfold lift, rows_until. cbn [vshape]. by erewrite bindM_ok by done.
Qed.

Lemma sum_rows_from_app arrs t :
  sum_rows_from (View population (t * size_of (r :: c :: rest)) (r :: c :: rest)) 3 (h ++ arrs)
  = (Ok (senior c (size_of rest) (snapshot pa t)), h ++ arrs).
Proof.
  unfold sum_rows_from.
  erewrite bindM_ok by by eapply elements_app.
  unfold lift, rows_from. cbn [vshape]. by erewrite bindM_ok by done.
Qed.

(** One turn of the loop, on a store that ends with the six arrays. *)
Lemma metrics_step_app (n t : nat) (d1 d2 d3 d4 d5 d6 : list F) :
  t < n' → t < n → 3 ≤ c →
  length d1 = n → length d2 = n → length d3 = n →
  length d4 = n → length d5 = n → length d6 = n →
  let L := length h in
  let xs := snapshot pa t in
  let k := size_of rest in
  metrics_step population (Metrics (L + 0) (L + 1) (L + 2) (L + 3) (L + 4) (L + 5)) t
    (h ++ [NDArray [n] d1; NDArray [n] d2; NDArray [n] d3;
           NDArray [n] d4; NDArray [n] d5; NDArray [n] d6])
  = (Ok (),
     h ++ [NDArray [n] (<[t := np_sum xs]> d1);
           NDArray [n] (<[t := specialty_ratio r c k xs 0]> d2);
           NDArray [n] (<[t := specialty_ratio r c k xs 1]> d3);
           NDArray [n] (<[t := specialty_ratio r c k xs 2]> d4);
           NDArray [n] (<[t := junior_senior_ratio c k xs]> d5);
           NDArray [n] (<[t := senior c k xs]> d6)]).
Proof.
  intros Ht' Ht Hc H1 H2 H3 H4 H5 H6 L xs k. unfold metrics_step. cbn [total_force
    combat_ratio technical_ratio support_ratio junior_to_senior_ratio
    experienced_personnel].
  assert (∀ d : list F, length d = n → <[t := np_sum xs]> d !! t = Some (np_sum xs))
    as Htotal by (intros d Hd; apply list_lookup_insert_eq; lia).
  erewrite bindM_ok by by eapply subarray_app.
  erewrite bindM_ok by apply sum_view_app.
  erewrite bindM_ok by (by eapply store_item_app). cbn [list_insert].
  erewrite bindM_ok by (apply sum_column_app; lia).
  erewrite bindM_ok by (eapply (load_item_app _ _ 0); [reflexivity|by apply Htotal]).
  erewrite bindM_ok by (by eapply (store_item_app _ _ 1)). cbn [list_insert].
  erewrite bindM_ok by (apply sum_column_app; lia).
  erewrite bindM_ok by (eapply (load_item_app _ _ 0); [reflexivity|by apply Htotal]).
  erewrite bindM_ok by (by eapply (store_item_app _ _ 2)). cbn [list_insert].
  erewrite bindM_ok by (apply sum_column_app; lia).
  erewrite bindM_ok by (eapply (load_item_app _ _ 0); [reflexivity|by apply Htotal]).
  erewrite bindM_ok by (by eapply (store_item_app _ _ 3)). cbn [list_insert].
  erewrite bindM_ok by apply sum_rows_until_app.
  erewrite bindM_ok by apply sum_rows_from_app.
  erewrite bindM_ok by (by eapply (store_item_app _ _ 4)). cbn [list_insert].
  cbn [insert list_insert].
  erewrite (store_item_app h _ 5); [|reflexivity|done..]. reflexivity.
Qed.

Lemma filled_insert (n t : nat) (g : nat → F) :
  t < n → <[t := g t]> (data (filled n t g)) = data (filled n (S t) g).
Proof.
  intros Ht. unfold filled. cbn [data].
  rewrite insert_app_r_alt by (rewrite length_fmap, length_seq; lia).
  rewrite length_fmap, length_seq, Nat.sub_diag.
  replace (n - t) with (S (n - S t)) by lia. cbn [replicate list_insert insert].
  rewrite seq_S, fmap_app, <-app_assoc. reflexivity.
Qed.

Lemma metrics_loop (n k t : nat) :
  t + k = n → n ≤ n' → 3 ≤ c →
  let L := length h in
  let sz := size_of rest in
  for_inM (seq t k)
    (metrics_step population (Metrics (L + 0) (L + 1) (L + 2) (L + 3) (L + 4) (L + 5)))
    (h ++ [filled n t (λ t, np_sum (snapshot pa t));
           filled n t (λ t, specialty_ratio r c sz (snapshot pa t) 0);
           filled n t (λ t, specialty_ratio r c sz (snapshot pa t) 1);
           filled n t (λ t, specialty_ratio r c sz (snapshot pa t) 2);
           filled n t (λ t, junior_senior_ratio c sz (snapshot pa t));
           filled n t (λ t, senior c sz (snapshot pa t))])
  = (Ok (),
     h ++ [filled n n (λ t, np_sum (snapshot pa t));
           filled n n (λ t, specialty_ratio r c sz (snapshot pa t) 0);
           filled n n (λ t, specialty_ratio r c sz (snapshot pa t) 1);
           filled n n (λ t, specialty_ratio r c sz (snapshot pa t) 2);
           filled n n (λ t, junior_senior_ratio c sz (snapshot pa t));
           filled n n (λ t, senior c sz (snapshot pa t))]).
Proof.
  intros Hn Hn' Hc L sz.
  set (g1 := λ t, np_sum (snapshot pa t)).
  set (g2 := λ t, specialty_ratio r c sz (snapshot pa t) 0).
  set (g3 := λ t, specialty_ratio r c sz (snapshot pa t) 1).
  set (g4 := λ t, specialty_ratio r c sz (snapshot pa t) 2).
  set (g5 := λ t, junior_senior_ratio c sz (snapshot pa t)).
  set (g6 := λ t, senior c sz (snapshot pa t)).
  assert (∀ i g, i ≤ n → length (data (filled n i g)) = n) as Hlen.
  { intros i g Hi. unfold filled. cbn [data].
    rewrite length_app, length_fmap, length_seq, length_replicate. lia. }
  revert t Hn. induction k as [|k IH]; intros t Hn.
  - simpl. by replace t with n by lia.
  - cbn [seq for_inM].
    erewrite bindM_ok.
    2:{ apply (metrics_step_app n t (data (filled n t g1)) (data (filled n t g2))
                 (data (filled n t g3)) (data (filled n t g4))
                 (data (filled n t g5)) (data (filled n t g6)));
          try apply Hlen; lia. }
    cbv zeta. fold sz. fold (g1 t) (g2 t) (g3 t) (g4 t) (g5 t) (g6 t).
    rewrite !filled_insert by lia.
    apply IH. lia.
Qed.

(** With fewer than three columns, the turn raises at the first column
    it does not find. *)
Lemma metrics_step_few_columns (n t : nat) (d1 d2 d3 d4 d5 d6 : list F) :
  t < n' → t < n → c < 3 →
  length d1 = n → length d2 = n → length d3 = n →
  let L := length h in
  (metrics_step population (Metrics (L + 0) (L + 1) (L + 2) (L + 3) (L + 4) (L + 5)) t
     (h ++ [NDArray [n] d1; NDArray [n] d2; NDArray [n] d3;
            NDArray [n] d4; NDArray [n] d5; NDArray [n] d6])).1
  = Raise IndexError.
Proof.
  intros Ht' Ht Hc H1 H2 H3 L. unfold metrics_step. cbn [total_force
    combat_ratio technical_ratio support_ratio junior_to_senior_ratio
    experienced_personnel].
  assert (∀ d : list F, length d = n →
            <[t := np_sum (snapshot pa t)]> d !! t = Some (np_sum (snapshot pa t)))
    as Htotal by (intros d Hd; apply list_lookup_insert_eq; lia).
  erewrite bindM_ok by by eapply subarray_app.
  erewrite bindM_ok by apply sum_view_app.
  erewrite bindM_ok by (by eapply store_item_app). cbn [insert list_insert].
  destruct (decide (c = 0)) as [Hc0|Hc0].
  { apply bindM_raise1. rewrite sum_column_app_raise; [done|lia]. }
  erewrite bindM_ok by (apply sum_column_app; lia).
  erewrite bindM_ok by (eapply (load_item_app _ _ 0); [reflexivity|by apply Htotal]).
  erewrite bindM_ok by (by eapply (store_item_app _ _ 1)). cbn [insert list_insert].
  destruct (decide (c = 1)) as [Hc1|Hc1].
  { apply bindM_raise1. rewrite sum_column_app_raise; [done|lia]. }
  erewrite bindM_ok by (apply sum_column_app; lia).
  erewrite bindM_ok by (eapply (load_item_app _ _ 0); [reflexivity|by apply Htotal]).
  erewrite bindM_ok by (by eapply (store_item_app _ _ 2)). cbn [insert list_insert].
  apply bindM_raise1. rewrite sum_column_app_raise; [done|lia].
Qed.

End Step.

Lemma filled_zero (n : nat) (g : nat → F) : filled n 0 g = np_zeros [n].
Proof.
  unfold filled, np_zeros. simpl. by rewrite Nat.mul_1_r, Nat.sub_0_r.
Qed.

Lemma filled_full (n : nat) (g : nat → F) : filled n n g = series n g.
Proof. unfold filled, series. by rewrite Nat.sub_diag, app_nil_r. Qed.

(** The whole run, on a series with at least three columns. *)
Lemma calculate_metrics_run h (time population : nat) (ta pa : ndarray F)
    (n n' r c : nat) (tsh rest : list nat) :
  h !! time = Some ta → shape ta = n :: tsh →
  h !! population = Some pa → shape pa = n' :: r :: c :: rest →
  n ≤ n' → 3 ≤ c →
  let L := length h in
  calculate_metrics time population h
  = (Ok (Metrics L (L + 1) (L + 2) (L + 3) (L + 4) (L + 5)),
     h ++ metrics_of n r c (size_of rest) pa).
Proof.
  intros Hta Htsh Hpa Hshape Hn Hc L. unfold calculate_metrics, len.
  erewrite bindM_ok.
  2:{ erewrite bindM_ok; [|unfold load; by rewrite Hta]. unfold lift.
      by rewrite Htsh. }
  do 6 (erewrite bindM_ok by reflexivity).
  rewrite !length_app. cbn [length]. rewrite <-!app_assoc. cbn [app].
  rewrite <-!Nat.add_assoc. cbn [Nat.add].
  pose proof (metrics_loop h population pa n' r c rest Hpa Hshape n n 0
                eq_refl Hn Hc) as Hloop.
  cbv zeta in Hloop. rewrite !filled_zero, !filled_full, Nat.add_0_r in Hloop.
  by erewrite bindM_ok by exact Hloop.
Qed.

(** The run stops in its first turn when a column is missing. *)
Lemma calculate_metrics_few_columns h (time population : nat)
    (ta pa : ndarray F) (n n' r c : nat) (tsh rest : list nat) :
  h !! time = Some ta → shape ta = n :: tsh →
  h !! population = Some pa → shape pa = n' :: r :: c :: rest →
  0 < n → 0 < n' → c < 3 →
  (calculate_metrics time population h).1 = Raise IndexError.
Proof.
  intros Hta Htsh Hpa Hshape Hn Hn' Hc. unfold calculate_metrics, len.
  erewrite bindM_ok.
  2:{ erewrite bindM_ok; [|unfold load; by rewrite Hta]. unfold lift.
      by rewrite Htsh. }
  do 6 (erewrite bindM_ok by reflexivity).
  rewrite !length_app. cbn [length]. rewrite <-!app_assoc. cbn [app].
  rewrite <-!Nat.add_assoc. cbn [Nat.add].
  rewrite <-(Nat.add_0_r (length h)) at 1.
  apply bindM_raise1. destruct n as [|n]; [lia|]. cbn [seq for_inM].
  apply bindM_raise1. unfold np_zeros.
  eapply metrics_step_few_columns; try done; try lia;
    simpl; rewrite length_replicate; lia.
Qed.

(** The run over no time point. *)
Lemma calculate_metrics_empty h (time population : nat)
    (ta : ndarray F) (tsh : list nat) :
  h !! time = Some ta → shape ta = 0 :: tsh →
  let L := length h in
  calculate_metrics time population h
  = (Ok (Metrics L (L + 1) (L + 2) (L + 3) (L + 4) (L + 5)),
     h ++ replicate 6 (NDArray [0] [])).
Proof.
  intros Hta Htsh L. unfold calculate_metrics, len.
  erewrite bindM_ok.
  2:{ erewrite bindM_ok; [|unfold load; by rewrite Hta]. unfold lift.
      by rewrite Htsh. }
  do 6 (erewrite bindM_ok by reflexivity).
  rewrite !length_app. cbn [length]. rewrite <-!app_assoc. cbn [app].
  rewrite <-!Nat.add_assoc. cbn [Nat.add]. reflexivity.
Qed.

(** A series whose snapshots have fewer than three columns (fewer than
    three specialties): with at least one time point, [calculate_metrics]
    raises [IndexError], at the first of [pop[:, 0]], [pop[:, 1]],
    [pop[:, 2]] that is out of bounds. *)
Theorem calculate_metrics_needs_three_specialties h (time population : nat)
    (ta pa : ndarray F) (n n' r c : nat) (tsh rest : list nat) :
  h !! time = Some ta → shape ta = n :: tsh →
  h !! population = Some pa → shape pa = n' :: r :: c :: rest →
  0 < n → 0 < n' → c < 3 →
  (calculate_metrics time population h).1 = Raise IndexError.
Proof. intros. by eapply calculate_metrics_few_columns. Qed.

(** With no time point the loop does not run: six empty arrays are
    returned and the population is not read at all. *)
Theorem calculate_metrics_of_no_time_point h (time population : nat)
    (ta : ndarray F) (tsh : list nat) :
  h !! time = Some ta → shape ta = 0 :: tsh →
  let L := length h in
  calculate_metrics time population h
  = (Ok (Metrics L (L + 1) (L + 2) (L + 3) (L + 4) (L + 5)),
     h ++ replicate 6 (NDArray [0] [])).
Proof. intros. by eapply calculate_metrics_empty. Qed.

End Reducer.


(** ** Identities between the metrics, in exact arithmetic *)

Lemma np_sum_app (xs ys : list Qc) : np_sum (xs ++ ys) = (np_sum xs + np_sum ys)%Qc.
Proof.
  induction xs as [|x xs IH]; simpl.
  - change (np_sum (F:=Qc) []) with 0%Qc. ring.
  - rewrite !np_sum_cons, IH. ring.
Qed.

Lemma column_cells_S {F : Type} (r c k : nat) (xs : list F) (j : nat) :
  column_cells (S r) c k xs j
  = take k (drop (j * k) xs) ++ column_cells r c k (drop (c * k) xs) j.
Proof.
  unfold column_cells. cbn [seq fmap list_fmap concat]. f_equal.
  rewrite <-fmap_S_seq, <-list_fmap_compose. f_equal.
  apply list_fmap_ext. intros _ i _. simpl. rewrite drop_drop. do 2 f_equal. nia.
Qed.

(** The three columns of a grid of three columns hold all its cells. *)
Lemma columns_partition (r : nat) (xs : list Qc) :
  length xs = r * 3 →
  (np_sum (column_cells r 3 1 xs 0) + np_sum (column_cells r 3 1 xs 1)
   + np_sum (column_cells r 3 1 xs 2))%Qc = np_sum xs.
Proof.
  revert xs. induction r as [|r IH]; intros xs Hlen.
  - destruct xs; [|done]. unfold column_cells. simpl.
    change (np_sum (F:=Qc) []) with 0%Qc. ring.
  - destruct xs as [|a [|b [|c xs]]]; try done.
    rewrite !column_cells_S. simpl in Hlen. simpl. rewrite !drop_0.
    rewrite !np_sum_cons, <-(IH xs) by lia. ring.
Qed.

Lemma series_lookup {F : Type} (n t : nat) (g : nat → F) :
  t < n → data (series n g) !! t = Some (g t).
Proof.
  intros Ht. unfold series. simpl. rewrite list_lookup_fmap, lookup_seq_lt by done.
  reflexivity.
Qed.

Lemma metric_at_app {F : Type} (h arrs : list (ndarray F)) (i t : nat) :
  metric_at (h ++ arrs) (length h + i) t = (a ← arrs !! i; data a !! t).
Proof.
  unfold metric_at. rewrite lookup_app_r by lia.
  by replace (length h + i - length h) with i by lia.
Qed.

Lemma py_max1_positive (x : Qc) : py_max1 x ≠ 0%Qc.
Proof.
  unfold py_max1. change (fltb x fone) with (bool_decide (x < 1)%Qc).
  case_bool_decide as Hx.
  - change (@fone Qc exact) with 1%Qc. done.
  - intros ->. apply Hx. reflexivity.
Qed.

Section ExactMetrics.
Variables (h : list (ndarray Qc)) (time population : nat) (ta pa : ndarray Qc).
Variables (n n' r c : nat) (tsh rest : list nat).
Hypothesis Hta : h !! time = Some ta.
Hypothesis Htsh : shape ta = n :: tsh.
Hypothesis Hpa : h !! population = Some pa.
Hypothesis Hshape : shape pa = n' :: r :: c :: rest.
Hypothesis Hn : n ≤ n'.
Hypothesis Hc : 3 ≤ c.

Lemma junior_senior_identity (t : nat) :
  t < n →
  ∃ m h' total ratio experienced,
    calculate_metrics time population h = (Ok m, h') ∧
    metric_at h' (total_force m) t = Some total ∧
    metric_at h' (junior_to_senior_ratio m) t = Some ratio ∧
    metric_at h' (experienced_personnel m) t = Some experienced ∧
    (ratio * py_max1 experienced + experienced)%Qc = total.
Proof.
  intros Ht. eexists _, _, _, _, _.
  split; [by eapply calculate_metrics_run|].
  cbn [total_force combat_ratio technical_ratio support_ratio
       junior_to_senior_ratio experienced_personnel].
  rewrite <-(Nat.add_0_r (length h)) at 1. rewrite !metric_at_app.
  unfold metrics_of. simpl. rewrite !list_lookup_fmap, !lookup_seq_lt by done.
  simpl. repeat split.
  unfold junior_senior_ratio, junior, senior.
  set (xs := snapshot pa t). set (k := 3 * (c * size_of rest)).
  assert (np_sum xs = (np_sum (take k xs) + np_sum (drop k xs))%Qc) as ->
    by by rewrite <-np_sum_app, take_drop.
  change (np_sum (take k xs) / py_max1 (np_sum (drop k xs)))%F
    with (np_sum (take k xs) / py_max1 (np_sum (drop k xs)))%Qc.
  pose proof (py_max1_positive (np_sum (drop k xs))). by field.
Qed.

End ExactMetrics.

(** In exact arithmetic, at every time index the three stored metrics
    satisfy [ratio * max(experienced, 1) + experienced = total]: the
    junior and the senior ranks together are the whole force, and the
    divisor of the ratio is never zero. *)
Theorem junior_senior_ratio_identity (h : list (ndarray Qc)) (time population : nat)
    (ta pa : ndarray Qc) (n n' r c : nat) (tsh rest : list nat) (t : nat) :
  h !! time = Some ta → shape ta = n :: tsh →
  h !! population = Some pa → shape pa = n' :: r :: c :: rest →
  n ≤ n' → 3 ≤ c → t < n →
  ∃ m h' total ratio experienced,
    calculate_metrics time population h = (Ok m, h') ∧
    metric_at h' (total_force m) t = Some total ∧
    metric_at h' (junior_to_senior_ratio m) t = Some ratio ∧
    metric_at h' (experienced_personnel m) t = Some experienced ∧
    (ratio * py_max1 experienced + experienced)%Qc = total.
Proof. intros. by eapply junior_senior_identity. Qed.

(** In exact arithmetic, for snapshots of exactly three specialties (a
    well-formed array of [n'] grids of [r] ranks), the three specialty
    ratios at a time index add up to 1 whenever the total force there is
    not zero. *)
Theorem specialty_ratios_sum_to_one (h : list (ndarray Qc)) (time population : nat)
    (ta pa : ndarray Qc) (n n' r : nat) (tsh : list nat) (t : nat) :
  h !! time = Some ta → shape ta = n :: tsh →
  h !! population = Some pa → shape pa = [n'; r; 3] →
  length (data pa) = n' * (r * 3) →
  n ≤ n' → t < n →
  ∃ m h' total combat technical support,
    calculate_metrics time population h = (Ok m, h') ∧
    metric_at h' (total_force m) t = Some total ∧
    metric_at h' (combat_ratio m) t = Some combat ∧
    metric_at h' (technical_ratio m) t = Some technical ∧
    metric_at h' (support_ratio m) t = Some support ∧
    (total ≠ 0%Qc → (combat + technical + support)%Qc = 1%Qc).
Proof.
  intros Hta Htsh Hpa Hshape Hlen Hn Ht. eexists _, _, _, _, _, _.
  split; [by eapply (calculate_metrics_run h time population ta pa n n' r 3 tsh [])|].
  cbn [total_force combat_ratio technical_ratio support_ratio
       junior_to_senior_ratio experienced_personnel].
  rewrite <-(Nat.add_0_r (length h)) at 1. rewrite !metric_at_app.
  unfold metrics_of. simpl. rewrite !list_lookup_fmap, !lookup_seq_lt by done.
  simpl. repeat split. intros Htotal.
  unfold specialty_ratio. set (xs := snapshot pa t) in *.
  assert (length xs = r * 3) as Hxs.
  { unfold xs, snapshot. rewrite Hshape. simpl.
    rewrite length_take, length_drop. nia. }
  pose proof (columns_partition r xs Hxs) as Hcols.
  set (a := np_sum (column_cells r 3 1 xs 0)) in *.
  set (b := np_sum (column_cells r 3 1 xs 1)) in *.
  set (d := np_sum (column_cells r 3 1 xs 2)) in *.
  change ((a / np_sum xs)%F) with (a / np_sum xs)%Qc.
  change ((b / np_sum xs)%F) with (b / np_sum xs)%Qc.
  change ((d / np_sum xs)%F) with (d / np_sum xs)%Qc.
  rewrite <-Hcols in Htotal |- *. by field.
Qed.

(** ** The scenario runner: what it leaves alone and what it prints *)

Section Untouched.
Context {F : Type} `{!Scalar F}.
Implicit Types (self : gmap string (attr F)) (st : scenario_state F).
Implicit Types (kwargs : list (string * value F)).
Variable solve_ivp :
  (F → list F → result (list F)) → F * F → list F → list F → result (OdeResult F).

Lemma overrides_original_subset kwargs st k :
  k ∈ (st_original (foldl override st kwargs)).*1 →
  k ∈ (st_original st).*1 ∨ k ∈ kwargs.*1.
Proof.
  revert st. induction kwargs as [|kv kwargs IH]; intros st Hk; [by left|].
  simpl in *. destruct (IH _ Hk) as [Hin|Hin].
  - destruct (override_original_keys _ _ _ Hin) as [?|[-> _]]; [by left|].
    right. by left.
  - right. by right.
Qed.

(** An attribute of the instance that no override names is the same
    after the call as before it, whether the simulation returned or raised
    (no key of [kwargs] being [special]: those can replace the attributes
    as a whole). *)
Theorem run_scenario_leaves_other_attributes self (scenario_name : string) (years : F)
    kwargs key :
  Forall (λ key, special key = false) kwargs.*1 →
  key ∉ kwargs.*1 →
  (run_scenario solve_ivp self scenario_name years kwargs).1.2 !! key = self !! key.
Proof.
  intros _ Hkey. unfold run_scenario.
  set (st := foldl override (ScenarioState self [] []) kwargs).
  assert (st_self st !! key = self !! key) as Hself
    by (unfold st; by rewrite overrides_self_ne).
  destruct (_ ≫= _) as [r|e]; simpl; [|done].
  rewrite restore_ne; [done|]. intros Hk.
  apply overrides_original_subset in Hk as [Hk|Hk]; [|done].
  by apply elem_of_nil in Hk.
Qed.

Lemma override_hasattr st kv key :
  hasattr (st_self (override st kv)) key = hasattr (st_self st) key.
Proof.
  destruct kv as [k v]. unfold override.
  destruct (hasattr (st_self st) k) eqn:Hk; [|done].
  destruct (getattr (st_self st) k) eqn:Hget; [|done]. simpl.
  destruct (decide (k = key)) as [->|Hne].
  - rewrite Hk. unfold hasattr. by rewrite getattr_setattr_eq.
  - by apply hasattr_setattr_ne.
Qed.

Lemma overrides_out_spec kwargs st :
  (∀ key, hasattr (st_self (foldl override st kwargs)) key = hasattr (st_self st) key) ∧
  st_out (foldl override st kwargs)
  = st_out st ++ (warning <$> (filter (λ key, hasattr (st_self st) key = false) kwargs.*1)).
Proof.
  revert st. induction kwargs as [|[k v] kwargs IH]; intros st.
  - simpl. by rewrite app_nil_r.
  - rewrite fmap_cons. cbn [foldl fst].
    destruct (IH (override st (k, v))) as [Hhas Hout]. split.
    + intros key. by rewrite Hhas, override_hasattr.
    + rewrite Hout.
      rewrite (list_filter_iff _ (λ key, hasattr (st_self st) key = false))
        by (intros key; by rewrite override_hasattr).
      unfold override. destruct (hasattr (st_self st) k) eqn:Hk.
      * rewrite filter_cons_False by congruence. by destruct (getattr _ _).
      * rewrite filter_cons_True by done. simpl. by rewrite <-app_assoc.
Qed.

(** No key of [kwargs] being [special]: the lines printed are the
    warnings [Warning: Parameter '<key>' not recognized.] for the keys
    [hasattr] does not find on the model, one for each, in the order of
    [kwargs]; nothing is printed for the others.  Overriding never changes
    which names [hasattr] finds. *)
Theorem run_scenario_prints_warnings self (scenario_name : string) (years : F) kwargs :
  Forall (λ key, special key = false) kwargs.*1 →
  (run_scenario solve_ivp self scenario_name years kwargs).2
  = (λ key, "Warning: Parameter '" +:+ key +:+ "' not recognized.")%string
    <$> filter (λ key, hasattr self key = false) kwargs.*1.
Proof.
  intros _. unfold run_scenario.
  destruct (overrides_out_spec kwargs (ScenarioState self [] [])) as [_ Hout].
  simpl in Hout. by destruct (_ ≫= _).
Qed.

Lemma setattr_hasattr self k v key :
  hasattr self k = true → hasattr (setattr self k v) key = hasattr self key.
Proof.
  intros Hk. destruct (decide (k = key)) as [<-|Hne].
  - rewrite Hk. unfold hasattr. by rewrite getattr_setattr_eq.
  - by apply hasattr_setattr_ne.
Qed.

Lemma overrides_original_found kwargs st :
  (∀ k, k ∈ (st_original st).*1 → hasattr (st_self st) k = true) →
  ∀ k, k ∈ (st_original (foldl override st kwargs)).*1 →
       hasattr (st_self (foldl override st kwargs)) k = true.
Proof.
  revert st. induction kwargs as [|kv kwargs IH]; intros st Hst; [done|].
  simpl. apply IH. intros k Hk. rewrite override_hasattr.
  destruct (override_original_keys _ _ _ Hk) as [?|[_ ?]]; auto.
Qed.

Lemma restore_hasattr self (original_params : list (string * attr F)) key :
  (∀ k, k ∈ original_params.*1 → hasattr self k = true) →
  hasattr (restore self original_params) key = hasattr self key.
Proof.
  unfold restore. revert self.
  induction original_params as [|[k v] original_params IH]; intros self Hfound; [done|].
  simpl. assert (hasattr self k = true) as Hk by (apply Hfound; by left).
  rewrite IH.
  - by apply setattr_hasattr.
  - intros k' Hk'. rewrite setattr_hasattr by done. apply Hfound. by right.
Qed.

(** The call neither adds nor removes an attribute name: no key of
    [kwargs] being [special], what [hasattr] finds on the model after the
    call, among the names that are not [special], is what it found before,
    whether the simulation returned or raised.  A key that is not
    recognised is never created. *)
Theorem run_scenario_keeps_attribute_names self (scenario_name : string) (years : F)
    kwargs key :
  Forall (λ key, special key = false) kwargs.*1 →
  special key = false →
  hasattr (run_scenario solve_ivp self scenario_name years kwargs).1.2 key
  = hasattr self key.
Proof.
  intros _ _. unfold run_scenario.
  set (st := foldl override (ScenarioState self [] []) kwargs).
  destruct (overrides_out_spec kwargs (ScenarioState self [] [])) as [Hhas _].
  fold st in Hhas. simpl in Hhas.
  destruct (_ ≫= _) as [r|e]; simpl; [|by apply Hhas].
  rewrite restore_hasattr; [by apply Hhas|].
  apply overrides_original_found. by intros k ?%elem_of_nil.
Qed.

End Untouched.

(** ** The time grid for a horizon that is not positive *)

(** In exact arithmetic and for a positive step, [np.arange] gives no
    time point exactly when the horizon is zero or negative; it raises
    nothing either way. *)
Theorem no_time_point_iff_horizon_not_positive (years dt : Qc) :
  (0 < dt)%Qc →
  np_arange0 years dt = Ok [] ↔ (years ≤ 0)%Qc.
Proof.
  intros Hdt. rewrite np_arange0_exact by (intros ->; by apply Qclt_not_eq in Hdt).
  assert ((0 < Qceiling (years / dt)%Qc)%Z ↔ (0 < years)%Qc) as Hpos.
  { rewrite Qceiling_gt. rewrite <-(multiple_below years dt 0 Hdt).
    replace (Q2Qc (inject_Z 0) * dt)%Qc with 0%Qc; [done|].
    change (Q2Qc (inject_Z 0)) with 0%Qc. ring. }
  split.
  - intros Hnil. apply Qcnot_lt_le. intros Hyears%Hpos.
    destruct (Z.to_nat (Qceiling (years / dt)%Qc)) as [|n] eqn:Hn; [lia|].
    by injection Hnil.
  - intros Hyears%Qcle_not_lt.
    replace (Z.to_nat (Qceiling (years / dt)%Qc)) with 0; [done|].
    destruct (decide (0 < Qceiling (years / dt)%Qc)%Z) as [Hc%Hpos|Hc]; [done|lia].
Qed.

(** ** Transposition, and the layout of the population *)

Section Transpose.
Context {F : Type} `{!Scalar F}.
Implicit Types a : ndarray F.

Lemma omap_total {A B} (f : A → option B) (l : list A) :
  (∀ x, x ∈ l → is_Some (f x)) →
  length (omap f l) = length l ∧ ∀ i, omap f l !! i = l !! i ≫= f.
Proof.
  induction l as [|x l IH]; intros Hf; [by split; [|intros []]|].
  destruct (Hf x) as [y Hy]; [by left|].
  destruct IH as [Hlen Hlook]; [intros z Hz; apply Hf; by right|].
  simpl. rewrite Hy. simpl. split; [by f_equal|].
  intros [|i]; simpl; [done|apply Hlook].
Qed.

Lemma sum_list_blocks {A} (f : A → list F) (l : list A) (r : nat) :
  (∀ x, x ∈ l → length (f x) = r) → sum_list (length <$> (f <$> l)) = length l * r.
Proof.
  induction l as [|x l IH]; intros Hf; [done|].
  rewrite !fmap_cons. cbn [sum_list sum_list_with length]. rewrite Hf by left.
  rewrite IH; [unfold id; lia|]. intros z Hz. apply Hf. by right.
Qed.

Section Grid.
Variables (r c : nat) (a : ndarray F).
Hypothesis Ha : grid r c a.

Lemma transpose_column (j : nat) :
  j < c →
  length (omap (λ i, data a !! (i * c + j)) (seq 0 r)) = r ∧
  ∀ i, i < r → omap (λ i, data a !! (i * c + j)) (seq 0 r) !! i = data a !! (i * c + j).
Proof.
  intros Hj.
  destruct (omap_total (λ i, data a !! (i * c + j)) (seq 0 r)) as [Hlen Hlook].
  { intros i Hi%elem_of_seq. by apply (grid_lookup r c); [|lia|]. }
  split; [by rewrite Hlen, length_seq|].
  intros i Hi. by rewrite Hlook, lookup_seq_lt.
Qed.

Lemma transpose_grid : grid c r (transpose a).
Proof.
  destruct Ha as [Hsh Hlen]. unfold transpose. rewrite Hsh. split; [done|].
  simpl. rewrite length_join, (sum_list_blocks _ _ r), length_seq; [done|].
  intros j Hj%elem_of_seq. apply transpose_column. lia.
Qed.

(** [a.T[j, i]] is [a[i, j]]. *)
Lemma transpose_lookup (i j : nat) :
  i < r → j < c → data (transpose a) !! (j * r + i) = data a !! (i * c + j).
Proof.
  intros Hi Hj. destruct (grid_lookup r c a i j Ha Hi Hj) as [x Hx].
  rewrite Hx. destruct Ha as [Hsh _]. unfold transpose. rewrite Hsh. simpl.
  apply (join_lookup_Some_same_length' r); [|done|].
  - apply Forall_fmap, Forall_forall. intros j' Hj'%elem_of_seq. simpl.
    apply transpose_column. lia.
  - eexists. split.
    + rewrite list_lookup_fmap, lookup_seq_lt by done. reflexivity.
    + simpl. destruct (transpose_column j Hj) as [_ Hlook]. by rewrite Hlook.
Qed.

End Grid.

End Transpose.

(** ** What [simulate] returns, and when it cannot return *)

Section Simulate.
Context {F : Type} `{!Scalar F}.
Implicit Types (self : gmap string (attr F)) (a : ndarray F).
Variable solve_ivp :
  (F → list F → result (list F)) → F * F → list F → list F → result (OdeResult F).

Lemma reshape_shape_nonneg (len : nat) (dims : list Z) (sh : list nat) :
  Forall (λ n, 0 ≤ n)%Z dims → reshape_shape len dims = Ok sh →
  sh = Z.to_nat <$> dims ∧ Z.of_nat len = foldr Z.mul 1%Z dims.
Proof.
  intros Hdims. unfold reshape_shape.
  rewrite bool_decide_true by (eapply Forall_impl; [done|]; simpl; lia).
  assert (filter (λ n, n ≠ (-1)%Z) dims = dims) as ->.
  { induction Hdims as [|n dims Hn _ IH]; [done|].
    rewrite filter_cons_True by lia. by rewrite IH. }
  rewrite Nat.sub_diag.
  assert (0 ≤ foldr Z.mul 1 dims)%Z by (induction Hdims; simpl; lia).
  case_bool_decide; [|done]. intros [= <-]. split; [done|lia].
Qed.


(** What [simulate] returns hangs together, whatever the arithmetic: the
    six arrays of metrics are those of the snapshots of the population
    returned, as the model of [calculate_metrics] computes them. *)
Lemma simulate_returns_metrics self (years dt : F) (r s : Z)
    (time : list F) (population : ndarray F) (m : metrics (ndarray F)) :
  self !! "num_ranks" = Some (Data (VInt r)) →
  self !! "num_specialties" = Some (Data (VInt s)) →
  (0 ≤ r)%Z → (0 ≤ s)%Z →
  simulate solve_ivp self years dt = Ok (time, population, m) →
  shape population = [length time; Z.to_nat r; Z.to_nat s] ∧
  length (data population) = length time * (Z.to_nat r * Z.to_nat s) ∧
  [total_force m; combat_ratio m; technical_ratio m; support_ratio m;
   junior_to_senior_ratio m; experienced_personnel m]
  = metrics_of (length time) (Z.to_nat r) (Z.to_nat s) 1 population ∧
  (0 < length time → 3 ≤ Z.to_nat s).
Proof.
  intros Hnr Hns Hr Hs. unfold simulate. intros Hsim.
  destruct (np_arange0 years dt) as [ts|]; simpl in Hsim; [|done].
  destruct (getattr self "initial_population") as [ip|]; simpl in Hsim; [|done].
  destruct (py_flatten ip) as [y0|]; simpl in Hsim; [|done].
  destruct (solve_ivp _ _ _ _) as [sol|] eqn:Hsol; simpl in Hsim; [|done].
  destruct (dot_T (sol_y sol)) as [yT|] eqn:HyT; simpl in Hsim; [|done].
  rewrite (getattr_lookup _ _ _ Hnr), (getattr_lookup _ _ _ Hns) in Hsim.
  simpl in Hsim.
  destruct (reshape _ _) as [pop|] eqn:Hpop; simpl in Hsim; [|done].
  destruct (_ ≫= expect_method _) as [[]|]; simpl in Hsim; [|done].
  unfold reshape in Hpop.
  destruct (reshape_shape _ _) as [sh|] eqn:Hsh; simpl in Hpop; [|done].
  apply reshape_shape_nonneg in Hsh as [-> Hlen];
    [|repeat constructor; lia].
  injection Hpop as <-. simpl in Hlen, Hsim.
  assert (length (data yT) = length ts * (Z.to_nat r * Z.to_nat s)) as Hsize
    by (apply Nat2Z.inj; rewrite Hlen, !Nat2Z.inj_mul, !Z2Nat.id by lia; lia).
  match type of Hsim with
  | context [calculate_metrics 0 1 [_; ?p]] => set (pop := p) in *
  end.
  destruct ts as [|t0 ts'].
  - pose proof (calculate_metrics_empty [NDArray [0] []; pop] 0 1
                  (NDArray [0] []) [] eq_refl eq_refl) as Hcalc.
    cbv zeta in Hcalc. simpl length in Hsim. rewrite Hcalc in Hsim. simpl in Hsim.
    injection Hsim as <- <- <-. simpl.
    repeat split; try lia. exact Hsize.
  - set (ts := t0 :: ts') in *. set (ta := NDArray [length ts] ts) in *.
    assert (0 < length ts) as Hpos by (simpl; lia).
    destruct (decide (Z.to_nat s < 3)) as [Hfew|Henough].
    + pose proof (calculate_metrics_few_columns [ta; pop] 0 1 ta pop
        (length ts) (Z.to_nat (Z.of_nat (length ts))) (Z.to_nat r) (Z.to_nat s) [] []
        eq_refl eq_refl eq_refl eq_refl) as Hraise.
      rewrite Nat2Z.id in Hraise.
      destruct (calculate_metrics 0 1 [ta; pop]) as [[mm|e] h']; simpl in *;
        [|done]. by specialize (Hraise ltac:(lia) ltac:(lia) Hfew).
    + pose proof (calculate_metrics_run [ta; pop] 0 1 ta pop
        (length ts) (Z.to_nat (Z.of_nat (length ts))) (Z.to_nat r) (Z.to_nat s) [] []
        eq_refl eq_refl eq_refl eq_refl) as Hcalc.
      rewrite Nat2Z.id in Hcalc. specialize (Hcalc ltac:(lia) ltac:(lia)).
      cbv zeta in Hcalc. rewrite Hcalc in Hsim. simpl in Hsim.
      injection Hsim as <- <- <-. simpl. rewrite Nat2Z.id.
      repeat split; try lia. exact Hsize.
Qed.

(** What [simulate] returns hangs together, in any arithmetic: the
    population has one snapshot of [num_ranks] by [num_specialties] cells
    for each time point returned, and each of the six arrays of metrics has
    one value for each time point.  A simulation with at least one time
    point returns only if there are at least three specialties. *)
Theorem simulate_returns_consistent self (years dt : F) (r s : Z)
    (time : list F) (population : ndarray F) (m : metrics (ndarray F)) :
  self !! "num_ranks" = Some (Data (VInt r)) →
  self !! "num_specialties" = Some (Data (VInt s)) →
  (0 ≤ r)%Z → (0 ≤ s)%Z →
  simulate solve_ivp self years dt = Ok (time, population, m) →
  shape population = [length time; Z.to_nat r; Z.to_nat s] ∧
  length (data population) = length time * (Z.to_nat r * Z.to_nat s) ∧
  Forall (λ a, shape a = [length time] ∧ length (data a) = length time)
    [total_force m; combat_ratio m; technical_ratio m; support_ratio m;
     junior_to_senior_ratio m; experienced_personnel m] ∧
  (0 < length time → 3 ≤ Z.to_nat s).
Proof.
  intros Hnr Hns Hr Hs Hsim.
  destruct (simulate_returns_metrics _ _ _ _ _ _ _ _ Hnr Hns Hr Hs Hsim)
    as (Hshape & Hsize & Hm & Hthree).
  split; [done|]. split; [done|]. split; [|done].
  rewrite Hm. unfold metrics_of, series.
  repeat constructor; simpl; by rewrite length_fmap, length_seq.
Qed.

(** The layout of the population returned: the solver was called with
    the derivative function of the model, the span from 0 to the horizon,
    the flattened initial population and the time points; it returned an
    array of states, and cell [k] of snapshot [t] is component [k] of the
    solver's state at time point [t]
    ([population[t].flat[k] == solution.y[k, t]]). *)
Theorem simulate_population_layout self (years dt : F)
    (time : list F) (population : ndarray F) (m : metrics (ndarray F)) :
  simulate solve_ivp self years dt = Ok (time, population, m) →
  ∃ y0 solution y,
    getattr self "initial_population" ≫= py_flatten = Ok y0 ∧
    solve_ivp (workforce_ode self) (fzero, years) y0 time = Ok solution ∧
    sol_y solution = StateArray y ∧
    ∀ K n, grid K n y →
      ∀ k t, k < K → t < n →
        data population !! (t * K + k) = data y !! (k * n + t).
Proof.
  unfold simulate. intros Hsim.
  destruct (np_arange0 years dt) as [ts|]; simpl in Hsim; [|done].
  destruct (getattr self "initial_population") as [ip|]; simpl in Hsim; [|done].
  destruct (py_flatten ip) as [y0|] eqn:Hy0; simpl in Hsim; [|done].
  destruct (solve_ivp _ _ _ _) as [sol|] eqn:Hsol; simpl in Hsim; [|done].
  destruct (sol_y sol) as [y|] eqn:Hy; simpl in Hsim; [|done].
  destruct (getattr self "num_ranks") as [nr|]; simpl in Hsim; [|done].
  destruct (getattr self "num_specialties") as [ns|]; simpl in Hsim; [|done].
  destruct (as_int nr) as [r|]; simpl in Hsim; [|done].
  destruct (as_int ns) as [s|]; simpl in Hsim; [|done].
  destruct (reshape _ _) as [pop|] eqn:Hpop; simpl in Hsim; [|done].
  destruct (_ ≫= expect_method _) as [[]|]; simpl in Hsim; [|done].
  pose proof (calculate_metrics_frame 0 1 [NDArray [length ts] ts; pop]) as Hframe.
  destruct (calculate_metrics 0 1 _) as [[mm|] h']; simpl in *; [|done].
  destruct h' as [|a0 [|a1 h']]; simpl in Hframe; try done.
  injection Hframe as -> ->. simpl in Hsim.
  destruct (read_metrics _ _); [|done]. injection Hsim as <- <- <-.
  exists y0, sol, y. split; [done|]. split; [done|]. split; [done|].
  intros K n Hgrid k t Hk Ht.
  unfold reshape in Hpop. destruct (reshape_shape _ _); simpl in Hpop; [|done].
  injection Hpop as <-. simpl. by apply transpose_lookup.
Qed.

(** When the solver returns a well-formed array of states whose size is
    not that of one state of [num_ranks * num_specialties] cells per time
    point, [simulate] raises the [ValueError] of [reshape]: no metric is
    computed. *)
Theorem simulate_rejects_missing_states self (years dt : F) (r s : Z)
    (time y0 : list F) (solution : OdeResult F) (y : ndarray F) (K n : nat) :
  np_arange0 years dt = Ok time →
  getattr self "initial_population" ≫= py_flatten = Ok y0 →
  solve_ivp (workforce_ode self) (fzero, years) y0 time = Ok solution →
  sol_y solution = StateArray y →
  self !! "num_ranks" = Some (Data (VInt r)) →
  self !! "num_specialties" = Some (Data (VInt s)) →
  (0 ≤ r)%Z → (0 ≤ s)%Z →
  grid K n y →
  (Z.of_nat (K * n) ≠ Z.of_nat (length time) * (r * s))%Z →
  simulate solve_ivp self years dt = Raise ValueError.
Proof.
  intros Hts Hy0 Hsol Hy Hnr Hns Hr Hs Hgrid Hsize. unfold simulate.
  rewrite Hts. simpl.
  destruct (getattr self "initial_population") as [ip|]; simpl in *; [|done].
  rewrite Hy0. simpl. rewrite Hsol. simpl. rewrite Hy. simpl.
  rewrite (getattr_lookup _ _ _ Hnr), (getattr_lookup _ _ _ Hns). simpl.
  unfold reshape. rewrite reshape_shape_mismatch; [done|repeat constructor; lia|].
  destruct (transpose_grid K n _ Hgrid) as [_ ->]. simpl. lia.
Qed.


End Simulate.


(** ** The properties above at concrete inputs *)

Lemma workforce_ode_returns_default :
  configured model64 6 3 recruitment_rates_default promotion_rates_default
    attrition_rates_default (concat cross_training_default) ∧
  length grid64 = 6 * 3 ∧
  ∃ rates, workforce_ode model64 0%float grid64 = Ok rates ∧ length rates = 6 * 3.
Proof.
  assert (configured model64 6 3 recruitment_rates_default promotion_rates_default
            attrition_rates_default (concat cross_training_default)) as Hself
    by (unfold configured; repeat split; lia || reflexivity).
  split; [exact Hself|]. split; [reflexivity|].
  exact (workforce_ode_returns 6 3 model64 _ _ _ _ 0%float grid64 Hself eq_refl).
Defined.

Lemma workforce_ode_rejects_size_default :
  model64 !! "num_ranks" = Some (Data (VInt 6)) ∧
  model64 !! "num_specialties" = Some (Data (VInt 3)) ∧
  (0 ≤ 6)%Z ∧ (0 ≤ 3)%Z ∧
  Z.of_nat (length (replicate 17 0%float)) ≠ (6 * 3)%Z ∧
  workforce_ode model64 0%float (replicate 17 0%float) = Raise ValueError.
Proof.
  assert (Z.of_nat (length (replicate 17 0%float)) ≠ (6 * 3)%Z) as Hlen by done.
  assert (0 ≤ 6)%Z as H6 by done. assert (0 ≤ 3)%Z as H3 by done.
  repeat (split; [done|]).
  exact (workforce_ode_rejects_size model64 6 3 0%float (replicate 17 0%float)
           eq_refl eq_refl H6 H3 Hlen).
Defined.

Lemma workforce_ode_of_empty_force_default :
  configured modelQ 6 3 recruitment_rates_default promotion_rates_default
    attrition_rates_default (concat cross_training_default) ∧
  workforce_ode modelQ 0%Qc (replicate (6 * 3) 0%Qc)
  = Ok (recruitment_rates_default ++ replicate ((6 - 1) * 3) 0%Qc).
Proof.
  assert (configured modelQ 6 3 recruitment_rates_default promotion_rates_default
            attrition_rates_default (concat cross_training_default)) as Hself
    by (unfold configured; repeat split; lia || reflexivity).
  split; [exact Hself|].
  exact (workforce_ode_of_empty_force 6 3 modelQ _ _ _ _ 0%Qc Hself).
Defined.

Lemma workforce_ode_recruitment_only_default :
  configured recruitment_only 6 3 recruitment_rates_default (replicate 6 0%Qc)
    (replicate 6 0%Qc) (replicate (3 * 3) 0%Qc) ∧
  length gridQ = 6 * 3 ∧
  workforce_ode recruitment_only 0%Qc gridQ
  = Ok (recruitment_rates_default ++ replicate ((6 - 1) * 3) 0%Qc).
Proof.
  assert (configured recruitment_only 6 3 recruitment_rates_default (replicate 6 0%Qc)
            (replicate 6 0%Qc) (replicate (3 * 3) 0%Qc)) as Hself
    by (unfold configured; repeat split; lia || reflexivity).
  split; [exact Hself|]. split; [reflexivity|].
  exact (workforce_ode_recruitment_only 6 3 recruitment_only _ gridQ 0%Qc Hself eq_refl).
Defined.


Lemma calculate_metrics_needs_three_specialties_default :
  two_specialties !! 0 = Some (NDArray [1] [0%float]) ∧
  shape (NDArray [1] [0%float]) = [1] ∧
  two_specialties !! 1 = Some (NDArray [1; 6; 2] (replicate 12 1%float)) ∧
  shape (NDArray [1; 6; 2] (replicate 12 1%float)) = [1; 6; 2] ∧
  0 < 1 ∧ 2 < 3 ∧
  (calculate_metrics 0 1 two_specialties).1 = Raise IndexError.
Proof.
  assert (0 < 1) as H1 by lia. assert (2 < 3) as H3 by lia.
  repeat (split; [done|]).
  exact (calculate_metrics_needs_three_specialties two_specialties 0 1 _ _ 1 1 6 2 [] []
           eq_refl eq_refl eq_refl eq_refl H1 H1 H3).
Defined.

Lemma calculate_metrics_of_no_time_point_default :
  no_time_point !! 0 = Some (NDArray [0] []) ∧
  shape (NDArray [0] ([] : list float)) = [0] ∧
  calculate_metrics 0 7 no_time_point
  = (Ok (Metrics 1 2 3 4 5 6), no_time_point ++ replicate 6 (NDArray [0] [])).
Proof.
  repeat (split; [done|]).
  exact (calculate_metrics_of_no_time_point no_time_point 0 7 _ [] eq_refl eq_refl).
Defined.

Lemma junior_senior_ratio_identity_default :
  one_snapshot gridQ !! 0 = Some (NDArray [1] [0%Qc]) ∧
  one_snapshot gridQ !! 1 = Some (NDArray [1; 6; 3] gridQ) ∧
  1 ≤ 1 ∧ 3 ≤ 3 ∧ 0 < 1 ∧
  ∃ m h' total ratio experienced,
    calculate_metrics 0 1 (one_snapshot gridQ) = (Ok m, h') ∧
    metric_at h' (total_force m) 0 = Some total ∧
    metric_at h' (junior_to_senior_ratio m) 0 = Some ratio ∧
    metric_at h' (experienced_personnel m) 0 = Some experienced ∧
    (ratio * py_max1 experienced + experienced)%Qc = total.
Proof.
  assert (1 ≤ 1) as H1 by lia. assert (3 ≤ 3) as H3 by lia.
  assert (0 < 1) as H0 by lia.
  repeat (split; [done|]).
  exact (junior_senior_ratio_identity (one_snapshot gridQ) 0 1 _ _ 1 1 6 3 [] [] 0
           eq_refl eq_refl eq_refl eq_refl H1 H3 H0).
Defined.

Lemma specialty_ratios_sum_to_one_default :
  one_snapshot gridQ !! 0 = Some (NDArray [1] [0%Qc]) ∧
  one_snapshot gridQ !! 1 = Some (NDArray [1; 6; 3] gridQ) ∧
  length gridQ = 1 * (6 * 3) ∧ 1 ≤ 1 ∧ 0 < 1 ∧
  ∃ m h' total combat technical support,
    calculate_metrics 0 1 (one_snapshot gridQ) = (Ok m, h') ∧
    metric_at h' (total_force m) 0 = Some total ∧
    metric_at h' (combat_ratio m) 0 = Some combat ∧
    metric_at h' (technical_ratio m) 0 = Some technical ∧
    metric_at h' (support_ratio m) 0 = Some support ∧
    (total ≠ 0%Qc → (combat + technical + support)%Qc = 1%Qc).
Proof.
  assert (1 ≤ 1) as H1 by lia. assert (0 < 1) as H0 by lia.
  repeat (split; [done|]).
  exact (specialty_ratios_sum_to_one (one_snapshot gridQ) 0 1 _ _ 1 1 6 [] 0
           eq_refl eq_refl eq_refl eq_refl eq_refl H1 H0).
Defined.

Lemma run_scenario_leaves_other_attributes_default :
  Forall (λ key, special key = false) scenario_kwargs.*1 ∧
  ("num_ranks"%string ∉ scenario_kwargs.*1) ∧
  (run_scenario failed_solver model64 "growth" 1%float scenario_kwargs).1.2 !! "num_ranks"
  = model64 !! "num_ranks".
Proof.
  assert ("num_ranks"%string ∉ scenario_kwargs.*1) as Hkey.
  { intros Hin. apply elem_of_cons in Hin as [Hin|Hin]; [discriminate|].
    apply list_elem_of_singleton in Hin. discriminate. }
  assert (Forall (λ key, special key = false) scenario_kwargs.*1) as Hkeys
    by (by repeat constructor).
  split; [exact Hkeys|]. split; [exact Hkey|].
  exact (run_scenario_leaves_other_attributes failed_solver model64 "growth" 1%float
           scenario_kwargs "num_ranks" Hkeys Hkey).
Defined.

Lemma run_scenario_prints_warnings_default :
  Forall (λ key, special key = false) scenario_kwargs.*1 ∧
  (run_scenario failed_solver model64 "growth" 1%float scenario_kwargs).2
  = (λ key, "Warning: Parameter '" +:+ key +:+ "' not recognized.")%string
    <$> filter (λ key, hasattr model64 key = false) scenario_kwargs.*1.
Proof.
  assert (Forall (λ key, special key = false) scenario_kwargs.*1) as Hkeys
    by (by repeat constructor).
  split; [exact Hkeys|].
  exact (run_scenario_prints_warnings failed_solver model64 "growth" 1%float
           scenario_kwargs Hkeys).
Defined.

Lemma run_scenario_keeps_attribute_names_default :
  Forall (λ key, special key = false) scenario_kwargs.*1 ∧
  special "retention_bonus" = false ∧
  hasattr (run_scenario failed_solver model64 "growth" 1%float scenario_kwargs).1.2
    "retention_bonus"
  = hasattr model64 "retention_bonus".
Proof.
  assert (Forall (λ key, special key = false) scenario_kwargs.*1) as Hkeys
    by (by repeat constructor).
  split; [exact Hkeys|]. split; [reflexivity|].
  exact (run_scenario_keeps_attribute_names failed_solver model64 "growth" 1%float
           scenario_kwargs "retention_bonus" Hkeys eq_refl).
Defined.

Lemma no_time_point_iff_horizon_not_positive_default :
  (0 < dec 1 10)%Qc ∧
  (np_arange0 (of_Z (-1)) (dec 1 10 : Qc) = Ok [] ↔ (of_Z (-1) ≤ 0)%Qc).
Proof.
  assert (0 < dec 1 10)%Qc as Hdt by reflexivity.
  split; [exact Hdt|].
  exact (no_time_point_iff_horizon_not_positive (of_Z (-1)) (dec 1 10) Hdt).
Defined.

Lemma simulate_returns_consistent_default :
  model64 !! "num_ranks" = Some (Data (VInt 6)) ∧
  model64 !! "num_specialties" = Some (Data (VInt 3)) ∧
  (0 ≤ 6)%Z ∧ (0 ≤ 3)%Z ∧
  ∃ time population m,
    simulate steady_solver model64 1%float step64 = Ok (time, population, m) ∧
    shape population = [length time; Z.to_nat 6; Z.to_nat 3] ∧
    length (data population) = length time * (Z.to_nat 6 * Z.to_nat 3) ∧
    Forall (λ a, shape a = [length time] ∧ length (data a) = length time)
      [total_force m; combat_ratio m; technical_ratio m; support_ratio m;
       junior_to_senior_ratio m; experienced_personnel m] ∧
    (0 < length time → 3 ≤ Z.to_nat 3).
Proof.
  assert (0 ≤ 6)%Z as H6 by done. assert (0 ≤ 3)%Z as H3 by done.
  repeat (split; [done|]).
  assert (∃ time population m,
    simulate steady_solver model64 1%float step64 = Ok (time, population, m))
    as (time & population & m & Hsim) by (eexists _, _, _; vm_compute; reflexivity).
  exists time, population, m. split; [exact Hsim|].
  exact (simulate_returns_consistent steady_solver model64 1%float step64 6 3
           time population m eq_refl eq_refl H6 H3 Hsim).
Defined.


Lemma simulate_population_layout_default :
  ∃ time population m,
    simulate steady_solver model64 1%float step64 = Ok (time, population, m) ∧
    ∃ y0 solution y,
      getattr model64 "initial_population" ≫= py_flatten = Ok y0 ∧
      steady_solver (workforce_ode model64) (fzero, 1%float) y0 time = Ok solution ∧
      sol_y solution = StateArray y ∧
      ∀ K n, grid K n y →
        ∀ k t, k < K → t < n →
          data population !! (t * K + k) = data y !! (k * n + t).
Proof.
  assert (∃ time population m,
    simulate steady_solver model64 1%float step64 = Ok (time, population, m))
    as (time & population & m & Hsim) by (eexists _, _, _; vm_compute; reflexivity).
  exists time, population, m. split; [exact Hsim|].
  exact (simulate_population_layout steady_solver model64 1%float step64
           time population m Hsim).
Defined.

Lemma simulate_rejects_missing_states_default :
  ∃ time y0 solution y,
    np_arange0 1%float step64 = Ok time ∧
    getattr model64 "initial_population" ≫= py_flatten = Ok y0 ∧
    short_solver (workforce_ode model64) (fzero, 1%float) y0 time = Ok solution ∧
    sol_y solution = StateArray y ∧
    model64 !! "num_ranks" = Some (Data (VInt 6)) ∧
    model64 !! "num_specialties" = Some (Data (VInt 3)) ∧
    (0 ≤ 6)%Z ∧ (0 ≤ 3)%Z ∧
    grid 18 1 y ∧
    (Z.of_nat (18 * 1) ≠ Z.of_nat (length time) * (6 * 3))%Z ∧
    simulate short_solver model64 1%float step64 = Raise ValueError.
Proof.
  assert (0 ≤ 6)%Z as H6 by done. assert (0 ≤ 3)%Z as H3 by done.
  assert (∃ time, np_arange0 1%float step64 = Ok time ∧ length time = 10)
    as (time & Htime & Hlen) by (eexists; split; [vm_compute; reflexivity|reflexivity]).
  assert (getattr model64 "initial_population" ≫= py_flatten = Ok grid64) as Hy0
    by reflexivity.
  set (y := NDArray [length grid64; 1] grid64).
  set (solution := {| sol_t := take 1 time; sol_y := StateArray y;
                      sol_status := (-1)%Z; sol_success := false |}).
  assert (short_solver (workforce_ode model64) (fzero, 1%float) grid64 time = Ok solution)
    as Hsol by reflexivity.
  assert (grid 18 1 y) as Hgrid by (split; reflexivity).
  assert (Z.of_nat (18 * 1) ≠ Z.of_nat (length time) * (6 * 3))%Z as Hsize
    by (rewrite Hlen; done).
  exists time, grid64, solution, y. repeat (split; [done|]).
  exact (simulate_rejects_missing_states short_solver model64 1%float step64 6 3
           time grid64 solution y 18 1 Htime Hy0 Hsol eq_refl eq_refl eq_refl H6 H3
           Hgrid Hsize).
Defined.


Lemma workforce_ode_needs_a_rank_default :
  no_rank !! "num_ranks" = Some (Data (VInt 0)) ∧
  no_rank !! "num_specialties" = Some (Data (VInt 3)) ∧
  (0 ≤ 3)%Z ∧
  workforce_ode no_rank 0%float [] = Raise IndexError.
Proof.
  assert (0 ≤ 3)%Z as H3 by done.
  repeat (split; [done|]).
  exact (workforce_ode_needs_a_rank no_rank 3 0%float eq_refl eq_refl H3).
Defined.

Lemma workforce_ode_rejects_recruitment_length_default :
  two_recruitment_rates !! "num_ranks" = Some (Data (VInt (Z.of_nat 6))) ∧
  two_recruitment_rates !! "num_specialties" = Some (Data (VInt (Z.of_nat 3))) ∧
  two_recruitment_rates !! "recruitment_rates"
  = Some (Data (VArray (NDArray [2] [of_Z 100; of_Z 120]))) ∧
  0 < 6 ∧ length gridQ = 6 * 3 ∧ 2 ≠ 3 ∧ 2 ≠ 1 ∧
  workforce_ode two_recruitment_rates 0%Qc gridQ = Raise ValueError.
Proof.
  assert (0 < 6) as H6 by lia. assert (2 ≠ 3) as H23 by lia.
  assert (2 ≠ 1) as H21 by lia.
  repeat (split; [done|]).
  exact (workforce_ode_rejects_recruitment_length two_recruitment_rates 6 3 2
           [of_Z 100; of_Z 120] 0%Qc gridQ eq_refl eq_refl eq_refl H6 eq_refl H23 H21).
Defined.
